(** * Mini E-Commerce API: the request handlers of [app/main.py]

  The handlers of [app/main.py] are embedded as functions that take the
  store as it is when the request arrives and return the store as the
  request leaves it together with either the response body or the
  [HTTPException] that was raised.  The persistence layer ([app/crud.py]) and
  the token issuer ([app/auth.py]) are reached through two interfaces,
  [crud.Crud] and [auth.Auth]; the handlers are written once, over any
  implementation of them. *)

From Stdlib Require Import ZArith List Bool String Ascii Lia.
Import ListNotations.

#[local] Open Scope string_scope.
#[local] Open Scope Z_scope.

(** ** Python values the handlers rely on *)

(** [str.lower()], on the ASCII letters. *)
Definition lower_ascii (c : ascii) : ascii :=
  let n := nat_of_ascii c in
  if (Nat.leb 65 n && Nat.leb n 90)%bool then ascii_of_nat (n + 32) else c.

Fixpoint lower (s : string) : string :=
  match s with
  | EmptyString => EmptyString
  | String c s' => String (lower_ascii c) (lower s')
  end.

(** [needle in hay] on strings: [needle] occurs in [hay] as a substring. *)
Fixpoint contains (needle hay : string) : bool :=
  if prefix needle hay then true
  else match hay with
     | EmptyString => false
     | String _ hay' => contains needle hay'
     end.

(** A call either returns a value or raises. *)
Inductive result (E A : Type) : Type :=
  | Ok (a : A)
  | Raise (e : E).
Arguments Ok {E A} a.
Arguments Raise {E A} e.

(** [ValueError(msg)], the exception of the persistence layer. *)
Definition ValueError := string.

(** [fastapi.HTTPException(status_code, detail)]. *)
Record HTTPException := { status_code : Z; detail : string }.

(** What the framework answers when a handler lets any other exception
  escape. *)
Definition internal_server_error : HTTPException :=
  {| status_code := 500; detail := "Internal Server Error" |}.

Definition HTTP_401_UNAUTHORIZED : Z := 401.

(** A JSON scalar, as stored under a key of the token payload. *)
Inductive JValue := JInt (n : Z) | JStr (s : string).

(** A [dict] with string keys, in insertion order. *)
Definition dict := list (string * JValue).

(** [datetime.timedelta], in seconds. *)
Definition timedelta := Z.
Definition timedelta_minutes (minutes : Z) : timedelta := 60 * minutes.

(** ** Rows of the store ([models]) *)

Module User.
Record t := { id : Z; email : string; password : string; role : string }.
End User.

Module Category.
Record t := { id : Z; name : string }.
End Category.

Module Product.
Record t := { id : Z; name : string; price : Z; stock : Z;
              category_id : Z; seller_id : option Z }.
End Product.

Module Cart.
Record t := { id : Z; user_id : Z }.
End Cart.

Module CartItem.
Record t := { id : Z; cart_id : Z; product_id : Z; quantity : Z }.
End CartItem.

Module Order.
Record t := { id : Z; user_id : Z }.
End Order.

Module OrderItem.
Record t := { id : Z; order_id : Z; product_id : Z; quantity : Z; price : Z }.
End OrderItem.

(** The store seen through a session: one list of rows per table. *)
Record DB := {
  users : list User.t;
  categories : list Category.t;
  products : list Product.t;
  carts : list Cart.t;
  cart_items : list CartItem.t;
  orders : list Order.t;
  order_items : list OrderItem.t
}.

(** ** Request and response bodies ([schemas]) *)

Module schemas.
Record UserCreate := { UserCreate_email : string; UserCreate_password : string }.

Record UserUpdate := { UserUpdate_email : option string;
                       UserUpdate_password : option string;
                       UserUpdate_role : option string }.

Record CartItemBase := { CartItemBase_product_id : Z; CartItemBase_quantity : Z }.

Record ProductBase := { ProductBase_name : string; ProductBase_price : Z;
                        ProductBase_stock : Z; ProductBase_category_id : Z }.

(** [OAuth2PasswordRequestForm]: the form-encoded credentials of a login. *)
Record OAuth2PasswordRequestForm := { username : string; form_password : string }.

Record Token := { access_token : string; token_type : string }.

Record Message := { message : string }.

(** An order goes out with its line items. *)
Record Order := { Order_row : Order.t; Order_items : list OrderItem.t }.
End schemas.

(** ** The persistence layer, as [main.py] calls it *)

Module crud.
Class Crud := {
  get_user_by_email : DB -> string -> option User.t;
  Signup : DB -> schemas.UserCreate -> DB * User.t;
  verify_password : string -> string -> bool;
  get_user : DB -> Z -> option User.t;
  update_user : DB -> User.t -> schemas.UserUpdate -> DB * User.t;
  get_products_by_category : DB -> Z -> list Product.t;
  get_cart : DB -> Z -> option Cart.t;
  create_cart : DB -> Z -> DB * Cart.t;
  add_cart_item :
    DB -> Z -> schemas.CartItemBase -> DB * result ValueError CartItem.t;
  update_cart_item :
    DB -> Z -> Z -> DB * result ValueError (option CartItem.t);
  remove_cart_item : DB -> Z -> DB * bool;
  create_order_from_cart_for_user :
    DB -> Z -> DB * result ValueError schemas.Order;
  update_product :
    DB -> Z -> schemas.ProductBase -> option Z -> DB * option Product.t;
  delete_product : DB -> Z -> Z -> string -> DB * bool
}.
End crud.

(** ** The token issuer, as [main.py] calls it *)

Module auth.
(** [create_access_token now data expires_delta]; [now] is the clock
    reading of the call. *)
Class Auth := {
  create_access_token : Z -> dict -> timedelta -> string
}.
End auth.

(** ** The handlers of [app/main.py] *)

Module main.
Section Handlers.
Context {C : crud.Crud} {A : auth.Auth}.

Definition signup (db : DB) (user : schemas.UserCreate)
  : DB * result HTTPException User.t :=
  match crud.get_user_by_email db (schemas.UserCreate_email user) with
  | Some _ =>
      (db, Raise {| status_code := 400; detail := "Email already registered" |})
  | None =>
      let '(db', u) := crud.Signup db user in (db', Ok u)
  end.

Definition login (now : Z) (db : DB) (form_data : schemas.OAuth2PasswordRequestForm)
  : DB * result HTTPException schemas.Token :=
  let unauthorized :=
    {| status_code := HTTP_401_UNAUTHORIZED;
       detail := "Incorrect email or password" |} in
  match crud.get_user_by_email db (schemas.username form_data) with
  | None => (db, Raise unauthorized)
  | Some user =>
      if negb (crud.verify_password (schemas.form_password form_data)
                                    (User.password user))
      then (db, Raise unauthorized)
      else
        let token :=
          auth.create_access_token now
            [("user_id", JInt (User.id user));
             ("email", JStr (User.email user));
             ("role", JStr (User.role user))]
            (timedelta_minutes 60) in
        (db, Ok {| schemas.access_token := token;
                   schemas.token_type := "bearer" |})
  end.

Definition list_products_by_category (db : DB) (category_id : Z)
  : DB * result HTTPException (list Product.t) :=
  match crud.get_products_by_category db category_id with
  | [] =>
      (db, Raise {| status_code := 404;
                    detail := "No products found for this category" |})
  | products => (db, Ok products)
  end.

Definition get_cart (db : DB) (current_user : User.t)
  : DB * result HTTPException Cart.t :=
  match crud.get_cart db (User.id current_user) with
  | Some cart => (db, Ok cart)
  | None =>
      let '(db', cart) := crud.create_cart db (User.id current_user) in
      (db', Ok cart)
  end.

Definition add_item_to_cart (db : DB) (item : schemas.CartItemBase)
    (current_user : User.t)
  : DB * result HTTPException CartItem.t :=
  let '(db1, cart) :=
    match crud.get_cart db (User.id current_user) with
    | Some cart => (db, cart)
    | None => crud.create_cart db (User.id current_user)
    end in
  match crud.add_cart_item db1 (Cart.id cart) item with
  | (db2, Ok ci) => (db2, Ok ci)
  | (db2, Raise e) =>
      let msg := lower e in
      if contains "not found" msg
      then (db2, Raise {| status_code := 404; detail := e |})
      else if contains "insufficient" msg
      then (db2, Raise {| status_code := 400; detail := e |})
      else (db2, Raise {| status_code := 400; detail := e |})
  end.

(** [item.cart]: the cart row the item's [cart_id] points to. *)
Definition item_cart (db : DB) (item : CartItem.t) : option Cart.t :=
  find (fun c => Cart.id c =? CartItem.cart_id item) (carts db).

Definition update_cart_item (db : DB) (cart_item_id quantity : Z)
    (current_user : User.t)
  : DB * result HTTPException CartItem.t :=
  match crud.update_cart_item db cart_item_id quantity with
  | (db1, Raise _) => (db1, Raise internal_server_error)
  | (db1, Ok None) =>
      (db1, Raise {| status_code := 404; detail := "Cart item not found" |})
  | (db1, Ok (Some item)) =>
      match item_cart db1 item with
      | None => (db1, Raise internal_server_error)
      | Some cart =>
          if (negb (Cart.user_id cart =? User.id current_user)
              && negb (User.role current_user =? "admin")%string)%bool
          then (db1, Raise {| status_code := 403;
                              detail := "Not allowed to modify this item" |})
          else (db1, Ok item)
      end
  end.

Definition delete_cart_item (db : DB) (cart_item_id : Z) (current_user : User.t)
  : DB * result HTTPException schemas.Message :=
  match find (fun i => CartItem.id i =? cart_item_id) (cart_items db) with
  | None =>
      (db, Raise {| status_code := 404; detail := "Cart item not found" |})
  | Some item =>
      match find (fun c => Cart.id c =? CartItem.cart_id item) (carts db) with
      | None =>
          (db, Raise {| status_code := 404; detail := "Cart not found" |})
      | Some cart =>
          if (negb (Cart.user_id cart =? User.id current_user)
              && negb (User.role current_user =? "admin")%string)%bool
          then (db, Raise {| status_code := 403;
                             detail := "Not allowed to delete this item" |})
          else
            let '(db1, deleted) := crud.remove_cart_item db cart_item_id in
            if negb deleted
            then (db1, Raise {| status_code := 404;
                                detail := "Cart item not found" |})
            else (db1, Ok {| schemas.message :=
                               "Cart Item Deleted Successfully" |})
      end
  end.

Definition create_order_from_cart (db : DB) (current_user : User.t)
  : DB * result HTTPException schemas.Order :=
  match crud.create_order_from_cart_for_user db (User.id current_user) with
  | (db1, Ok order) => (db1, Ok order)
  | (db1, Raise e) =>
      let msg := lower e in
      if contains "not found" msg
      then (db1, Raise {| status_code := 404; detail := e |})
      else if contains "empty" msg
      then (db1, Raise {| status_code := 400; detail := e |})
      else (db1, Raise {| status_code := 400; detail := e |})
  end.

Definition seller_update_product (db : DB) (product_id : Z)
    (product_update : schemas.ProductBase) (seller : User.t)
  : DB * result HTTPException Product.t :=
  match crud.update_product db product_id product_update
          (if (User.role seller =? "seller")%string
           then Some (User.id seller) else None) with
  | (db1, None) =>
      (db1, Raise {| status_code := 404;
                     detail := "Product not found or not authorized" |})
  | (db1, Some updated) => (db1, Ok updated)
  end.

Definition seller_delete_product (db : DB) (product_id : Z) (seller : User.t)
  : DB * result HTTPException schemas.Message :=
  let '(db1, deleted) :=
    crud.delete_product db product_id (User.id seller) (User.role seller) in
  if negb deleted
  then (db1, Raise {| status_code := 404;
                      detail := "Product not found or not authorized" |})
  else (db1, Ok {| schemas.message := "Product deleted successfully" |}).

Definition admin_update_user_role (db : DB) (user_id : Z)
    (update : schemas.UserUpdate) (admin : User.t)
  : DB * result HTTPException User.t :=
  match crud.get_user db user_id with
  | None => (db, Raise {| status_code := 404; detail := "User not found" |})
  | Some db_user =>
      if negb (match schemas.UserUpdate_role update with
               | Some r => existsb (String.eqb r) ["customer"; "seller"; "admin"]
               | None => false
               end)
      then (db, Raise {| status_code := 400; detail := "Invalid role" |})
      else
        let '(db1, u) := crud.update_user db db_user update in (db1, Ok u)
  end.
End Handlers.
End main.

(** ** The persistence layer and the token issuer, from the specification

  [app/crud.py] and [app/auth.py] are modelled from what the specification
  says about them.  Primary keys are handed out in increasing order, a
  query's [.first()] is the first matching row of the table, and every
  operation commits before it returns: [main.py] never commits itself. *)

Definition set_users (db : DB) (l : list User.t) : DB :=
  {| users := l; categories := categories db; products := products db;
   carts := carts db; cart_items := cart_items db; orders := orders db;
   order_items := order_items db |}.

Definition set_products (db : DB) (l : list Product.t) : DB :=
  {| users := users db; categories := categories db; products := l;
   carts := carts db; cart_items := cart_items db; orders := orders db;
   order_items := order_items db |}.

Definition set_carts (db : DB) (l : list Cart.t) : DB :=
  {| users := users db; categories := categories db; products := products db;
   carts := l; cart_items := cart_items db; orders := orders db;
   order_items := order_items db |}.

Definition set_cart_items (db : DB) (l : list CartItem.t) : DB :=
  {| users := users db; categories := categories db; products := products db;
   carts := carts db; cart_items := l; orders := orders db;
   order_items := order_items db |}.

(** The next value of an auto-incremented primary key. *)
Definition next_id (ids : list Z) : Z := 1 + fold_right Z.max 0 ids.

Module crud_spec.
Section Model.
(** The password hasher is an external collaborator. *)
Variable hash_password : string -> string.
Variable verify_hash : string -> string -> bool.

(** Modelled from the spec: [crud.get_user_by_email] is missing; "fails if
    email already registered" looks the email up in the user table. *)
Definition get_user_by_email (db : DB) (email : string) : option User.t :=
  find (fun u => (User.email u =? email)%string) (users db).

(** Modelled from the spec: [crud.Signup] is missing; "stores hashed
    password; returns created user". *)
Definition Signup (db : DB) (user : schemas.UserCreate) : DB * User.t :=
  let u := {| User.id := next_id (map User.id (users db));
              User.email := schemas.UserCreate_email user;
              User.password := hash_password (schemas.UserCreate_password user);
              User.role := "customer" |} in
  (set_users db (users db ++ [u])%list, u).

(** Modelled from the spec: [crud.verify_password] is missing; the
    "password hashing call" is out of the specification's scope. *)
Definition verify_password (plain hashed : string) : bool :=
  verify_hash plain hashed.

(** Modelled from the spec: [crud.get_user] is missing; a user is looked
    up by its id. *)
Definition get_user (db : DB) (user_id : Z) : option User.t :=
  find (fun u => User.id u =? user_id) (users db).

Definition apply_user_update (u : User.t) (update : schemas.UserUpdate) : User.t :=
  {| User.id := User.id u;
     User.email := match schemas.UserUpdate_email update with
                   | Some e => e | None => User.email u end;
     User.password := match schemas.UserUpdate_password update with
                      | Some p => hash_password p | None => User.password u end;
     User.role := match schemas.UserUpdate_role update with
                  | Some r => r | None => User.role u end |}.

(** Modelled from the spec: [crud.update_user] is missing; a user is
    "mutated by self-update or admin role-change": the fields the request
    carries replace the stored ones. *)
Definition update_user (db : DB) (user : User.t) (update : schemas.UserUpdate)
  : DB * User.t :=
  let u' := apply_user_update user update in
  (set_users db
     (map (fun u => if User.id u =? User.id user then u' else u) (users db)),
   u').

(** Modelled from the spec: [crud.get_products_by_category] is missing;
    the catalog is a "read-only listing of categories/products". *)
Definition get_products_by_category (db : DB) (category_id : Z)
  : list Product.t :=
  filter (fun p => Product.category_id p =? category_id) (products db).

(** Modelled from the spec: [crud.get_cart] is missing;
    "get_or_create_cart(user_id): returns existing cart". *)
Definition get_cart (db : DB) (user_id : Z) : option Cart.t :=
  find (fun c => Cart.user_id c =? user_id) (carts db).

(** Modelled from the spec: [crud.create_cart] is missing;
    "or creates an empty one". *)
Definition create_cart (db : DB) (user_id : Z) : DB * Cart.t :=
  let c := {| Cart.id := next_id (map Cart.id (carts db));
              Cart.user_id := user_id |} in
  (set_carts db (carts db ++ [c])%list, c).

Definition get_product (db : DB) (product_id : Z) : option Product.t :=
  find (fun p => Product.id p =? product_id) (products db).

Definition set_quantity (i : CartItem.t) (q : Z) : CartItem.t :=
  {| CartItem.id := CartItem.id i; CartItem.cart_id := CartItem.cart_id i;
     CartItem.product_id := CartItem.product_id i; CartItem.quantity := q |}.

Definition store_item (db : DB) (i' : CartItem.t) : DB :=
  set_cart_items db
    (map (fun i => if CartItem.id i =? CartItem.id i' then i' else i)
         (cart_items db)).

(** Modelled from the spec: [crud.add_cart_item] is missing;
    "add_item(cart_id, product_id, quantity): fails with NotFound if product
    missing; fails with InvalidInput if quantity <= 0; fails with
    InsufficientStock if quantity exceeds available stock; if item for that
    product already exists in cart, increments quantity (re-validating
    against stock) rather than duplicating the row". *)
Definition add_cart_item (db : DB) (cart_id : Z) (item : schemas.CartItemBase)
  : DB * result ValueError CartItem.t :=
  let product_id := schemas.CartItemBase_product_id item in
  let quantity := schemas.CartItemBase_quantity item in
  match get_product db product_id with
  | None => (db, Raise "Product not found")
  | Some product =>
      if quantity <=? 0 then (db, Raise "Quantity must be greater than zero")
      else if Product.stock product <? quantity
      then (db, Raise "Insufficient stock")
      else
        match find (fun i => (CartItem.cart_id i =? cart_id)
                             && (CartItem.product_id i =? product_id))%bool
                   (cart_items db) with
        | Some existing =>
            let q := CartItem.quantity existing + quantity in
            if Product.stock product <? q
            then (db, Raise "Insufficient stock")
            else let i' := set_quantity existing q in
                 (store_item db i', Ok i')
        | None =>
            let i := {| CartItem.id := next_id (map CartItem.id (cart_items db));
                        CartItem.cart_id := cart_id;
                        CartItem.product_id := product_id;
                        CartItem.quantity := quantity |} in
            (set_cart_items db (cart_items db ++ [i])%list, Ok i)
        end
  end.

(** Modelled from the spec: [crud.update_cart_item] is missing;
    "update_item_quantity(cart_item_id, quantity): fails with NotFound if
    item missing; re-validates quantity against current stock". *)
Definition update_cart_item (db : DB) (cart_item_id quantity : Z)
  : DB * result ValueError (option CartItem.t) :=
  match find (fun i => CartItem.id i =? cart_item_id) (cart_items db) with
  | None => (db, Ok None)
  | Some item =>
      match get_product db (CartItem.product_id item) with
      | None => (db, Raise "Product not found")
      | Some product =>
          if Product.stock product <? quantity
          then (db, Raise "Insufficient stock")
          else let i' := set_quantity item quantity in
               (store_item db i', Ok (Some i'))
      end
  end.

(** Modelled from the spec: [crud.remove_cart_item] is missing;
    "remove_item(cart_item_id): fails with NotFound if already absent". *)
Definition remove_cart_item (db : DB) (cart_item_id : Z) : DB * bool :=
  match find (fun i => CartItem.id i =? cart_item_id) (cart_items db) with
  | None => (db, false)
  | Some _ =>
      (set_cart_items db
         (filter (fun i => negb (CartItem.id i =? cart_item_id)) (cart_items db)),
       true)
  end.

(** Step 3 of the order workflow: the first cart item whose product cannot
    cover it, if any. *)
Fixpoint check_stock (db : DB) (items : list CartItem.t) : option ValueError :=
  match items with
  | [] => None
  | i :: rest =>
      match get_product db (CartItem.product_id i) with
      | None => Some "Product not found"
      | Some p =>
          if Product.stock p <? CartItem.quantity i
          then Some ("Insufficient stock for product " ++ Product.name p)
          else check_stock db rest
      end
  end.

Definition set_stock (p : Product.t) (s : Z) : Product.t :=
  {| Product.id := Product.id p; Product.name := Product.name p;
     Product.price := Product.price p; Product.stock := s;
     Product.category_id := Product.category_id p;
     Product.seller_id := Product.seller_id p |}.

Definition decrement_stock (ps : list Product.t) (i : CartItem.t)
  : list Product.t :=
  map (fun p => if Product.id p =? CartItem.product_id i
                then set_stock p (Product.stock p - CartItem.quantity i)
                else p) ps.

(** One line item per cart item, with the unit price of this moment. *)
Fixpoint snapshots (db : DB) (order_id next : Z) (items : list CartItem.t)
  : list OrderItem.t :=
  match items with
  | [] => []
  | i :: rest =>
      match get_product db (CartItem.product_id i) with
      | None => snapshots db order_id next rest
      | Some p =>
          {| OrderItem.id := next; OrderItem.order_id := order_id;
             OrderItem.product_id := CartItem.product_id i;
             OrderItem.quantity := CartItem.quantity i;
             OrderItem.price := Product.price p |}
          :: snapshots db order_id (next + 1) rest
      end
  end.

(** Modelled from the spec: [crud.create_order_from_cart_for_user] is
    missing; "1. Load cart; fails with NotFound if no cart exists for user.
    2. Fails with EmptyCart if cart has zero items.  3. For each cart item,
    re-validate stock is still sufficient (fails with InsufficientStock,
    naming the product, if not).  4. Atomically: create Order record, create
    one OrderItem snapshot per cart item, decrement each product's stock by
    the purchased quantity, delete all cart items (cart itself persists,
    empty).  5. Returns the created Order with its line items." *)
Definition create_order_from_cart_for_user (db : DB) (user_id : Z)
  : DB * result ValueError schemas.Order :=
  match get_cart db user_id with
  | None => (db, Raise "Cart not found")
  | Some cart =>
      let items :=
        filter (fun i => CartItem.cart_id i =? Cart.id cart) (cart_items db) in
      match items with
      | [] => (db, Raise "Cart is empty")
      | _ =>
          match check_stock db items with
          | Some e => (db, Raise e)
          | None =>
              let order := {| Order.id := next_id (map Order.id (orders db));
                              Order.user_id := user_id |} in
              let lines :=
                snapshots db (Order.id order)
                          (next_id (map OrderItem.id (order_items db))) items in
              ({| users := users db; categories := categories db;
                  products := fold_left decrement_stock items (products db);
                  carts := carts db;
                  cart_items :=
                    filter (fun i => negb (CartItem.cart_id i =? Cart.id cart))
                           (cart_items db);
                  orders := (orders db ++ [order])%list;
                  order_items := (order_items db ++ lines)%list |},
               Ok {| schemas.Order_row := order; schemas.Order_items := lines |})
          end
      end
  end.

Definition apply_product_update (p : Product.t) (update : schemas.ProductBase)
  : Product.t :=
  {| Product.id := Product.id p;
     Product.name := schemas.ProductBase_name update;
     Product.price := schemas.ProductBase_price update;
     Product.stock := schemas.ProductBase_stock update;
     Product.category_id := schemas.ProductBase_category_id update;
     Product.seller_id := Product.seller_id p |}.

(** Is the product owned by this seller? *)
Definition owned_by (seller_id : Z) (p : Product.t) : bool :=
  match Product.seller_id p with
  | Some s => s =? seller_id
  | None => false
  end.

(** Modelled from the spec: [crud.update_product] is missing; "scope
    mutation to the product's owning seller_id; admin bypasses ownership
    check"; it fails "when the product does not exist OR the requester is
    neither owner nor admin".  [main.py] passes [seller_id=None] for a
    requester whose role is not seller. *)
Definition update_product (db : DB) (product_id : Z)
    (update : schemas.ProductBase) (seller_id : option Z)
  : DB * option Product.t :=
  match find (fun p => (Product.id p =? product_id)
                       && match seller_id with
                          | Some s => owned_by s p
                          | None => true
                          end)%bool (products db) with
  | None => (db, None)
  | Some p =>
      let p' := apply_product_update p update in
      (set_products db
         (map (fun q => if Product.id q =? Product.id p then p' else q)
              (products db)),
       Some p')
  end.

(** Modelled from the spec: [crud.delete_product] is missing; same scoping
    as [update_product], from the requester's id and role. *)
Definition delete_product (db : DB) (product_id user_id : Z) (user_role : string)
  : DB * bool :=
  match get_product db product_id with
  | None => (db, false)
  | Some p =>
      if (negb (user_role =? "admin")%string && negb (owned_by user_id p))%bool
      then (db, false)
      else (set_products db
              (filter (fun q => negb (Product.id q =? product_id)) (products db)),
            true)
  end.

Definition model : crud.Crud :=
  {| crud.get_user_by_email := get_user_by_email;
     crud.Signup := Signup;
     crud.verify_password := verify_password;
     crud.get_user := get_user;
     crud.update_user := update_user;
     crud.get_products_by_category := get_products_by_category;
     crud.get_cart := get_cart;
     crud.create_cart := create_cart;
     crud.add_cart_item := add_cart_item;
     crud.update_cart_item := update_cart_item;
     crud.remove_cart_item := remove_cart_item;
     crud.create_order_from_cart_for_user := create_order_from_cart_for_user;
     crud.update_product := update_product;
     crud.delete_product := delete_product |}.
End Model.
End crud_spec.

Module auth_spec.
Section Model.
(** Signing with the server secret is an external collaborator: the token
    is whatever the encoder makes of the payload. *)
Variable jwt_encode : dict -> string.

(** [d.update({key: v})]. *)
Fixpoint dict_update (d : dict) (key : string) (v : JValue) : dict :=
  match d with
  | [] => [(key, v)]
  | (k, x) :: d' =>
      if (k =? key)%string then (k, v) :: d' else (k, x) :: dict_update d' key v
  end.

(** Modelled from the spec: [auth.create_access_token] is missing; "issues
    a signed token embedding user id, email, role, with a 60-minute expiry";
    "token payload: user id, email, role, expiry; signed with a server
    secret".  The expiry is the clock reading plus the lifetime asked for. *)
Definition create_access_token (now : Z) (data : dict) (expires_delta : timedelta)
  : string :=
  jwt_encode (dict_update data "exp" (JInt (now + expires_delta))).

Definition model : auth.Auth :=
  {| auth.create_access_token := create_access_token |}.
End Model.
End auth_spec.

(** ** A small store to run the handlers on *)

Module sample.
Definition hash_password (s : string) : string := "h:" ++ s.
Definition verify_hash (plain hashed : string) : bool :=
  (hash_password plain =? hashed)%string.

Fixpoint show (d : dict) : string :=
  match d with
  | [] => ""
  | (k, JInt _) :: d' => k ++ "#;" ++ show d'
  | (k, JStr s) :: d' => k ++ "=" ++ s ++ ";" ++ show d'
  end.
Definition jwt_encode (d : dict) : string := "jwt:" ++ show d.

Definition crud : crud.Crud := crud_spec.model hash_password verify_hash.
Definition auth : auth.Auth := auth_spec.model jwt_encode.

Definition alice : User.t :=
  {| User.id := 1; User.email := "alice@example.com";
     User.password := "h:wonderland"; User.role := "customer" |}.
Definition bob : User.t :=
  {| User.id := 2; User.email := "bob@example.com";
     User.password := "h:builder"; User.role := "customer" |}.
Definition sam : User.t :=
  {| User.id := 3; User.email := "sam@example.com";
     User.password := "h:seller"; User.role := "seller" |}.
Definition root : User.t :=
  {| User.id := 4; User.email := "root@example.com";
     User.password := "h:toor"; User.role := "admin" |}.
Definition sue : User.t :=
  {| User.id := 5; User.email := "sue@example.com";
     User.password := "h:other"; User.role := "seller" |}.

Definition novel : Product.t :=
  {| Product.id := 1; Product.name := "Novel"; Product.price := 500;
     Product.stock := 5; Product.category_id := 1; Product.seller_id := Some 3 |}.

(** Alice has a cart holding one novel; Bob has an empty cart; nobody else
    has one.  Category 2 exists and holds no product. *)
Definition db : DB :=
  {| users := [alice; bob; sam; root; sue];
     categories := [ {| Category.id := 1; Category.name := "Books" |};
                     {| Category.id := 2; Category.name := "Toys" |} ];
     products := [novel];
     carts := [ {| Cart.id := 1; Cart.user_id := 1 |};
                {| Cart.id := 2; Cart.user_id := 2 |} ];
     cart_items := [ {| CartItem.id := 1; CartItem.cart_id := 1;
                        CartItem.product_id := 1; CartItem.quantity := 1 |} ];
     orders := [];
     order_items := [] |}.
End sample.

(** ** More handlers of [app/main.py]

    The handlers below reach four more functions of the persistence layer;
    each handler takes the ones it calls as parameters. *)

Module main_rest.
Section Handlers.
Context {C : crud.Crud}.

(** [crud.del_user(db, user_id)]: the deleted user, or [None]. *)
Variable crud_del_user : DB -> Z -> DB * option User.t.

(** [crud.get_order(db, order_id)]. *)
Variable crud_get_order : DB -> Z -> option schemas.Order.

(** [schemas.ReviewCreate], [schemas.ReviewResponse] and
    [crud.create_review(db, user_id, review)]; the handler never looks inside
    a review. *)
Variables ReviewCreate ReviewResponse : Type.
Variable crud_create_review :
  DB -> Z -> ReviewCreate -> DB * result ValueError ReviewResponse.

(** [crud.create_product(db, product, seller_id)]. *)
Variable crud_create_product :
  DB -> schemas.ProductBase -> option Z -> DB * Product.t.

Definition update_user (db : DB) (update : schemas.UserUpdate)
    (current_user : User.t)
  : DB * result HTTPException User.t :=
  match crud.get_user db (User.id current_user) with
  | None => (db, Raise {| status_code := 404; detail := "User not found" |})
  | Some db_user =>
      let '(db1, u) := crud.update_user db db_user update in (db1, Ok u)
  end.

Definition delete_own_account (db : DB) (current_user : User.t)
  : DB * result HTTPException User.t :=
  match crud_del_user db (User.id current_user) with
  | (db1, None) =>
      (db1, Raise {| status_code := 404; detail := "User not found" |})
  | (db1, Some db_user) => (db1, Ok db_user)
  end.

Definition admin_delete_user (db : DB) (user_id : Z) (admin : User.t)
  : DB * result HTTPException User.t :=
  match crud_del_user db user_id with
  | (db1, None) =>
      (db1, Raise {| status_code := 404; detail := "User not found" |})
  | (db1, Some db_user) => (db1, Ok db_user)
  end.

Definition get_order (db : DB) (order_id : Z) (current_user : User.t)
  : DB * result HTTPException schemas.Order :=
  match crud_get_order db order_id with
  | None => (db, Raise {| status_code := 404; detail := "Order not found" |})
  | Some order =>
      if (negb (Order.user_id (schemas.Order_row order) =? User.id current_user)
          && negb (User.role current_user =? "admin")%string)%bool
      then (db, Raise {| status_code := 403;
                         detail := "Not allowed to access this order" |})
      else (db, Ok order)
  end.

Definition add_review (db : DB) (review : ReviewCreate) (current_user : User.t)
  : DB * result HTTPException ReviewResponse :=
  match crud_create_review db (User.id current_user) review with
  | (db1, Ok r) => (db1, Ok r)
  | (db1, Raise e) => (db1, Raise {| status_code := 400; detail := e |})
  end.

Definition create_product (db : DB) (product : schemas.ProductBase)
    (current_user : User.t)
  : DB * result HTTPException Product.t :=
  let '(db1, p) :=
    crud_create_product db product
      (if (User.role current_user =? "seller")%string
       then Some (User.id current_user) else None) in
  (db1, Ok p).
End Handlers.
Arguments add_review {ReviewCreate ReviewResponse} crud_create_review db review current_user.
End main_rest.

(** ** More of the persistence layer, from the specification *)

Module crud_spec_rest.
(** Modelled from the spec: [crud.del_user] is missing; a user is "deleted
    by self or admin". *)
Definition del_user (db : DB) (user_id : Z) : DB * option User.t :=
  match find (fun u => User.id u =? user_id) (users db) with
  | None => (db, None)
  | Some u =>
      (set_users db (filter (fun v => negb (User.id v =? user_id)) (users db)),
       Some u)
  end.

(** Modelled from the spec: [crud.get_order] is missing; an order "belongs
    to one User" and "contains snapshot line items". *)
Definition get_order (db : DB) (order_id : Z) : option schemas.Order :=
  match find (fun o => Order.id o =? order_id) (orders db) with
  | None => None
  | Some o =>
      Some {| schemas.Order_row := o;
              schemas.Order_items :=
                filter (fun l => OrderItem.order_id l =? order_id)
                       (order_items db) |}
  end.

(** Modelled from the spec: [crud.create_product] is missing; a product
    "belongs to one Category and optionally one seller User". *)
Definition create_product (db : DB) (product : schemas.ProductBase)
    (seller_id : option Z) : DB * Product.t :=
  let p := {| Product.id := next_id (map Product.id (products db));
              Product.name := schemas.ProductBase_name product;
              Product.price := schemas.ProductBase_price product;
              Product.stock := schemas.ProductBase_stock product;
              Product.category_id := schemas.ProductBase_category_id product;
              Product.seller_id := seller_id |} in
  (set_products db (products db ++ [p])%list, p).
End crud_spec_rest.

Module sample_rest.
(** The sample store after Alice has ordered her novel: order 1 is hers. *)
Definition db_with_order : DB :=
  Eval vm_compute in
    fst (main.create_order_from_cart (C := sample.crud) sample.db sample.alice).

Definition order1 : schemas.Order :=
  {| schemas.Order_row := {| Order.id := 1; Order.user_id := 1 |};
     schemas.Order_items :=
       [ {| OrderItem.id := 1; OrderItem.order_id := 1;
            OrderItem.product_id := 1; OrderItem.quantity := 1;
            OrderItem.price := 500 |} ] |}.

Definition gadget : schemas.ProductBase :=
  {| schemas.ProductBase_name := "Gadget"; schemas.ProductBase_price := 900;
     schemas.ProductBase_stock := 3; schemas.ProductBase_category_id := 2 |}.
End sample_rest.

(** ** Outcomes and views of the store used in the statements *)

Definition unauthorized : HTTPException :=
  {| status_code := 401; detail := "Incorrect email or password" |}.

Definition email_registered : HTTPException :=
  {| status_code := 400; detail := "Email already registered" |}.

(** The carts of a user. *)
Definition carts_of (db : DB) (user_id : Z) : list Cart.t :=
  filter (fun c => Cart.user_id c =? user_id) (carts db).

Definition insufficient_stock : HTTPException :=
  {| status_code := 400; detail := "Insufficient stock" |}.

(** The items of a cart. *)
Definition items_of (db : DB) (cart_id : Z) : list CartItem.t :=
  filter (fun i => CartItem.cart_id i =? cart_id) (cart_items db).

Definition cart_not_found : HTTPException :=
  {| status_code := 404; detail := "Cart not found" |}.

Definition cart_is_empty : HTTPException :=
  {| status_code := 400; detail := "Cart is empty" |}.

Definition product_not_found_or_not_authorized : HTTPException :=
  {| status_code := 404; detail := "Product not found or not authorized" |}.

Definition valid_roles : list string := ["customer"; "seller"; "admin"].

(** Every user of the store has one of the three roles. *)
Definition roles_valid (db : DB) : Prop :=
  Forall (fun u => In (User.role u) valid_roles) (users db).

Definition invalid_role : HTTPException :=
  {| status_code := 400; detail := "Invalid role" |}.

Definition not_allowed_to_modify : HTTPException :=
  {| status_code := 403; detail := "Not allowed to modify this item" |}.

Definition not_allowed_to_delete : HTTPException :=
  {| status_code := 403; detail := "Not allowed to delete this item" |}.

(** The quantity stored for a cart item, if the item exists. *)
Definition stored_quantity (db : DB) (cart_item_id : Z) : option Z :=
  option_map CartItem.quantity
    (find (fun i => CartItem.id i =? cart_item_id) (cart_items db)).

Definition not_allowed_to_access : HTTPException :=
  {| status_code := 403; detail := "Not allowed to access this order" |}.

(** Every cart item of the store belongs to a cart of the store. *)
Definition items_have_carts (db : DB) : Prop :=
  forall i, In i (cart_items db) ->
            exists c, In c (carts db) /\ Cart.id c = CartItem.cart_id i.

(** The requests that go through the handlers, over the modelled
    persistence layer, and the store each one leaves. *)
Inductive Request : Type :=
  | ReqSignup (user : schemas.UserCreate)
  | ReqLogin (now : Z) (form_data : schemas.OAuth2PasswordRequestForm)
  | ReqListProductsByCategory (category_id : Z)
  | ReqGetCart (current_user : User.t)
  | ReqAddItemToCart (item : schemas.CartItemBase) (current_user : User.t)
  | ReqUpdateCartItem (cart_item_id quantity : Z) (current_user : User.t)
  | ReqDeleteCartItem (cart_item_id : Z) (current_user : User.t)
  | ReqCreateOrderFromCart (current_user : User.t)
  | ReqSellerUpdateProduct (product_id : Z) (product_update : schemas.ProductBase)
                           (seller : User.t)
  | ReqSellerDeleteProduct (product_id : Z) (seller : User.t)
  | ReqAdminUpdateUserRole (user_id : Z) (update : schemas.UserUpdate)
                           (admin : User.t)
  | ReqUpdateUser (update : schemas.UserUpdate) (current_user : User.t)
  | ReqDeleteOwnAccount (current_user : User.t)
  | ReqAdminDeleteUser (user_id : Z) (admin : User.t)
  | ReqCreateProduct (product : schemas.ProductBase) (current_user : User.t).

Definition serve (C : crud.Crud) (A : auth.Auth) (db : DB) (req : Request) : DB :=
  match req with
  | ReqSignup user => fst (main.signup db user)
  | ReqLogin now form_data => fst (main.login now db form_data)
  | ReqListProductsByCategory category_id =>
      fst (main.list_products_by_category db category_id)
  | ReqGetCart current_user => fst (main.get_cart db current_user)
  | ReqAddItemToCart item current_user =>
      fst (main.add_item_to_cart db item current_user)
  | ReqUpdateCartItem cart_item_id quantity current_user =>
      fst (main.update_cart_item db cart_item_id quantity current_user)
  | ReqDeleteCartItem cart_item_id current_user =>
      fst (main.delete_cart_item db cart_item_id current_user)
  | ReqCreateOrderFromCart current_user =>
      fst (main.create_order_from_cart db current_user)
  | ReqSellerUpdateProduct product_id product_update seller =>
      fst (main.seller_update_product db product_id product_update seller)
  | ReqSellerDeleteProduct product_id seller =>
      fst (main.seller_delete_product db product_id seller)
  | ReqAdminUpdateUserRole user_id update admin =>
      fst (main.admin_update_user_role db user_id update admin)
  | ReqUpdateUser update current_user =>
      fst (main_rest.update_user db update current_user)
  | ReqDeleteOwnAccount current_user =>
      fst (main_rest.delete_own_account crud_spec_rest.del_user db current_user)
  | ReqAdminDeleteUser user_id admin =>
      fst (main_rest.admin_delete_user crud_spec_rest.del_user db user_id admin)
  | ReqCreateProduct product current_user =>
      fst (main_rest.create_product crud_spec_rest.create_product db product
             current_user)
  end.

Module sample_stock.
(** The sample store after Sam, the novel's seller, has set its stock to -1
    through his product update. *)
Definition db : DB :=
  Eval vm_compute in
    fst (main.seller_update_product (C := sample.crud) sample.db 1
           {| schemas.ProductBase_name := "Novel";
              schemas.ProductBase_price := 500;
              schemas.ProductBase_stock := -1;
              schemas.ProductBase_category_id := 1 |} sample.sam).


End sample_stock.

(** ** Table lookups *)

Lemma find_absent {X : Type} (f : X -> bool) (l : list X) :
  (forall x, In x l -> f x = false) -> find f l = None.
Proof.
  induction l as [|a l IH]; intros H; simpl; [reflexivity|].
  rewrite (H a (or_introl eq_refl)).
  apply IH. intros x Hx. apply H. right. exact Hx.
Qed.

Lemma find_present {X : Type} (f : X -> bool) (l : list X) (x : X) :
  In x l -> f x = true -> exists y, find f l = Some y /\ In y l /\ f y = true.
Proof.
  induction l as [|a l IH]; intros Hin Hf; simpl in *; [contradiction|].
  destruct (f a) eqn:Ha.
  - exists a. auto.
  - destruct Hin as [->|Hin]; [congruence|].
    destruct (IH Hin Hf) as (y & Hy & Hiny & Hfy). exists y. auto.
Qed.

Lemma find_app_absent {X : Type} (f : X -> bool) (l l' : list X) :
  find f l = None -> find f (l ++ l')%list = find f l'.
Proof.
  induction l as [|a l IH]; simpl; [reflexivity|].
  destruct (f a); [discriminate|exact IH].
Qed.

Lemma filter_absent {X : Type} (f : X -> bool) (l : list X) :
  find f l = None -> filter f l = [].
Proof.
  induction l as [|a l IH]; simpl; [reflexivity|].
  destruct (f a); [discriminate|exact IH].
Qed.

(** ** Listing products by category *)

(** C10: for every category id, listing products by category answers 404
    NotFound whenever the result set of the query is empty, whatever the reason
    it is empty for (the store is left as it was), and the handler never
    returns an empty list. *)
Theorem list_products_by_category_empty_is_not_found
    (C : crud.Crud) (db : DB) (category_id : Z) :
  (crud.get_products_by_category db category_id = [] ->
   main.list_products_by_category db category_id
   = (db, Raise {| status_code := 404;
                   detail := "No products found for this category" |}))
  /\ snd (main.list_products_by_category db category_id) <> Ok [].
Proof.
  unfold main.list_products_by_category. split.
  - intros ->. reflexivity.
  - destruct (crud.get_products_by_category db category_id); simpl; discriminate.
Qed.

(** A category of the store that holds no product (2) and a category that
    does not exist (99) get the very same answer. *)
Lemma list_products_by_category_empty_is_not_found_witness :
  main.list_products_by_category (C := sample.crud) sample.db 2
  = (sample.db, Raise {| status_code := 404;
                         detail := "No products found for this category" |})
  /\ main.list_products_by_category (C := sample.crud) sample.db 99
     = main.list_products_by_category (C := sample.crud) sample.db 2.
Proof.
  split.
  - apply (proj1 (list_products_by_category_empty_is_not_found
                    sample.crud sample.db 2)).
    reflexivity.
  - rewrite (proj1 (list_products_by_category_empty_is_not_found
                      sample.crud sample.db 2) eq_refl).
    apply (proj1 (list_products_by_category_empty_is_not_found
                    sample.crud sample.db 99)).
    reflexivity.
Defined.

(** ** Signup and login *)

(** C3: whatever the persistence layer and the token issuer are, a login
    whose email is unknown, or whose password does not match the stored one,
    is answered 401 Unauthorized; the answer is one and the same in both cases
    and the store is left as it was. *)
Theorem login_unknown_email_or_wrong_password
    (C : crud.Crud) (A : auth.Auth) (now : Z) (db : DB)
    (form_data : schemas.OAuth2PasswordRequestForm) :
  crud.get_user_by_email db (schemas.username form_data) = None
  \/ (exists user,
        crud.get_user_by_email db (schemas.username form_data) = Some user
        /\ crud.verify_password (schemas.form_password form_data)
                                (User.password user) = false) ->
  main.login now db form_data = (db, Raise unauthorized).
Proof.
  unfold main.login.
  intros [Hnone | (user & Hsome & Hpw)].
  - rewrite Hnone. reflexivity.
  - rewrite Hsome, Hpw. reflexivity.
Qed.

Lemma login_unknown_email_or_wrong_password_witness :
  main.login (C := sample.crud) (A := sample.auth) 1000 sample.db
    {| schemas.username := "mallory@example.com";
       schemas.form_password := "wonderland" |}
  = (sample.db, Raise unauthorized)
  /\ main.login (C := sample.crud) (A := sample.auth) 1000 sample.db
       {| schemas.username := "alice@example.com";
          schemas.form_password := "looking-glass" |}
     = (sample.db, Raise unauthorized).
Proof.
  split.
  - apply (login_unknown_email_or_wrong_password sample.crud sample.auth).
    left. reflexivity.
  - apply (login_unknown_email_or_wrong_password sample.crud sample.auth).
    right. exists sample.alice. split; reflexivity.
Defined.

(** The handler hands the issuer the three identity fields and a lifetime
    of sixty minutes, whatever the issuer is. *)
Lemma login_issues_token
    (C : crud.Crud) (A : auth.Auth) (now : Z) (db : DB)
    (form_data : schemas.OAuth2PasswordRequestForm) (user : User.t) :
  crud.get_user_by_email db (schemas.username form_data) = Some user ->
  crud.verify_password (schemas.form_password form_data)
                       (User.password user) = true ->
  main.login now db form_data
  = (db, Ok {| schemas.access_token :=
                 auth.create_access_token now
                   [("user_id", JInt (User.id user));
                    ("email", JStr (User.email user));
                    ("role", JStr (User.role user))]
                   (timedelta_minutes 60);
               schemas.token_type := "bearer" |}).
Proof.
  unfold main.login. intros -> ->. reflexivity.
Qed.

(** C8: on a successful login the token is the encoding of a payload made
    of exactly the user's id, email and role and of an expiry that lies 60
    minutes (3600 seconds) after the clock reading of the call. *)
Theorem login_token_payload
    (C : crud.Crud) (jwt_encode : dict -> string) (now : Z) (db : DB)
    (form_data : schemas.OAuth2PasswordRequestForm) (user : User.t) :
  crud.get_user_by_email db (schemas.username form_data) = Some user ->
  crud.verify_password (schemas.form_password form_data)
                       (User.password user) = true ->
  main.login (A := auth_spec.model jwt_encode) now db form_data
  = (db, Ok {| schemas.access_token :=
                 jwt_encode [("user_id", JInt (User.id user));
                             ("email", JStr (User.email user));
                             ("role", JStr (User.role user));
                             ("exp", JInt (now + 3600))];
               schemas.token_type := "bearer" |}).
Proof.
  intros Huser Hpw.
  rewrite (login_issues_token C _ now db form_data user Huser Hpw).
  reflexivity.
Qed.

Lemma login_token_payload_witness :
  main.login (C := sample.crud) (A := auth_spec.model sample.jwt_encode)
    1000 sample.db
    {| schemas.username := "alice@example.com";
       schemas.form_password := "wonderland" |}
  = (sample.db,
     Ok {| schemas.access_token :=
             sample.jwt_encode [("user_id", JInt 1);
                                ("email", JStr "alice@example.com");
                                ("role", JStr "customer");
                                ("exp", JInt 4600)];
           schemas.token_type := "bearer" |}).
Proof.
  apply (login_token_payload sample.crud sample.jwt_encode 1000 sample.db
           {| schemas.username := "alice@example.com";
              schemas.form_password := "wonderland" |} sample.alice);
    reflexivity.
Defined.

(** The guard of [signup], for any persistence layer. *)
Lemma signup_guard (C : crud.Crud) (db : DB) (user : schemas.UserCreate) (u : User.t) :
  crud.get_user_by_email db (schemas.UserCreate_email user) = Some u ->
  main.signup db user = (db, Raise email_registered).
Proof.
  unfold main.signup. intros ->. reflexivity.
Qed.

(** C2: when the user table already holds a user with the email of the
    signup request, the request fails with the duplicate-email error (the
    Conflict outcome, which the handler sends as status 400 "Email already
    registered") and the store, the user table included, is left as it was: no
    second row is created. *)
Theorem signup_duplicate_email
    (hash_password : string -> string) (verify_hash : string -> string -> bool)
    (db : DB) (user : schemas.UserCreate) (existing : User.t) :
  In existing (users db) ->
  User.email existing = schemas.UserCreate_email user ->
  main.signup (C := crud_spec.model hash_password verify_hash) db user
  = (db, Raise email_registered).
Proof.
  intros Hin Hemail.
  destruct (find_present
              (fun u => (User.email u =? schemas.UserCreate_email user)%string)
              (users db) existing Hin) as (u & Hfind & _ & _).
  { rewrite Hemail. apply String.eqb_refl. }
  apply (signup_guard _ db user u). exact Hfind.
Qed.

Lemma signup_duplicate_email_witness :
  main.signup (C := sample.crud) sample.db
    {| schemas.UserCreate_email := "bob@example.com";
       schemas.UserCreate_password := "hunter2" |}
  = (sample.db, Raise email_registered).
Proof.
  apply (signup_duplicate_email sample.hash_password sample.verify_hash
           sample.db _ sample.bob).
  - simpl. right. left. reflexivity.
  - reflexivity.
Defined.

(** ** The cart *)

Lemma find_filter_nonempty {X : Type} (f : X -> bool) (l : list X) (x : X) :
  find f l = Some x -> filter f l <> [].
Proof.
  intros Hfind Hnil.
  destruct (find_some _ _ Hfind) as [Hin Hf].
  assert (Hx : In x (filter f l)) by (apply filter_In; auto).
  rewrite Hnil in Hx. exact Hx.
Qed.

Lemma next_id_fresh (ids : list Z) (x : Z) : In x ids -> x < next_id ids.
Proof.
  unfold next_id. induction ids as [|a l IH]; cbn [fold_right In];
    [contradiction|].
  intros [->|Hin].
  - pose proof (Z.le_max_l x (fold_right Z.max 0 l)). lia.
  - specialize (IH Hin).
    pose proof (Z.le_max_r a (fold_right Z.max 0 l)). lia.
Qed.

Lemma filter_all_false {X : Type} (f : X -> bool) (l : list X) :
  (forall x, In x l -> f x = false) -> filter f l = [].
Proof.
  intros Hall. apply filter_absent. apply find_absent. exact Hall.
Qed.

(** C7: getting the current user's cart is idempotent.  The call returns a
    cart of the user that is in the store afterwards and adds no item to any
    cart; a second call returns the same cart and leaves the store as the first
    call left it.  A cart is created only when the user had none: then it is
    appended to the cart table under an id that no cart of the store has, it is
    the user's one cart, and it is empty in every store whose cart items all
    belong to carts of the store; otherwise the store is not touched.  No other
    table changes. *)
Theorem get_cart_idempotent
    (hash_password : string -> string) (verify_hash : string -> string -> bool)
    (db : DB) (current_user : User.t) :
  exists (db1 : DB) (cart : Cart.t),
    main.get_cart (C := crud_spec.model hash_password verify_hash) db current_user
    = (db1, Ok cart)
    /\ main.get_cart (C := crud_spec.model hash_password verify_hash) db1 current_user
       = (db1, Ok cart)
    /\ Cart.user_id cart = User.id current_user
    /\ In cart (carts db1)
    /\ cart_items db1 = cart_items db
    /\ carts_of db1 (User.id current_user)
       = match carts_of db (User.id current_user) with
         | [] => [cart]
         | existing => existing
         end
    /\ db1 = match carts_of db (User.id current_user) with
             | [] => set_carts db (carts db ++ [cart])%list
             | _ => db
             end
    /\ carts db1 = match carts_of db (User.id current_user) with
                   | [] => (carts db ++ [cart])%list
                   | _ => carts db
                   end
    /\ (users db1, categories db1, products db1, orders db1, order_items db1)
       = (users db, categories db, products db, orders db, order_items db)
    /\ (carts_of db (User.id current_user) = [] ->
        forall c, In c (carts db) -> Cart.id c <> Cart.id cart)
    /\ (carts_of db (User.id current_user) = [] ->
        items_have_carts db ->
        items_of db1 (Cart.id cart) = []).
Proof.
  unfold main.get_cart, carts_of. cbn [crud.get_cart crud.create_cart crud_spec.model].
  unfold crud_spec.get_cart, crud_spec.create_cart.
  destruct (find (fun c => Cart.user_id c =? User.id current_user) (carts db))
    as [c|] eqn:Hfind.
  - exists db, c. rewrite Hfind.
    destruct (find_some _ _ Hfind) as [Hin Huid].
    apply Z.eqb_eq in Huid.
    pose proof (find_filter_nonempty _ _ _ Hfind) as Hne.
    destruct (filter (fun c0 => Cart.user_id c0 =? User.id current_user) (carts db));
      [congruence|].
    repeat split; auto; discriminate.
  - set (c := {| Cart.id := next_id (map Cart.id (carts db));
                 Cart.user_id := User.id current_user |}).
    assert (Hfresh : forall c0, In c0 (carts db) -> Cart.id c0 < Cart.id c).
    { intros c0 Hc0. apply next_id_fresh. apply in_map. exact Hc0. }
    exists (set_carts db (carts db ++ [c])%list), c.
    cbn [carts set_carts].
    rewrite (find_app_absent _ _ [c] Hfind).
    rewrite filter_app, (filter_absent _ _ Hfind).
    cbn [find filter c Cart.user_id app]. rewrite Z.eqb_refl.
    repeat split; auto.
    + apply in_or_app. right. left. reflexivity.
    + intros _ c0 Hc0. specialize (Hfresh c0 Hc0). lia.
    + intros _ Hinv. unfold items_of. cbn [cart_items set_carts].
      apply filter_all_false. intros i Hi.
      destruct (Hinv i Hi) as (c0 & Hc0 & Hid).
      specialize (Hfresh c0 Hc0). apply Z.eqb_neq. lia.
Qed.

(** Sam has no cart in the sample store: the cart made for him is empty and
    its id is none of the ids in use. *)
Lemma get_cart_idempotent_witness :
  exists (db1 : DB) (cart : Cart.t),
    main.get_cart (C := sample.crud) sample.db sample.sam = (db1, Ok cart)
    /\ main.get_cart (C := sample.crud) db1 sample.sam = (db1, Ok cart)
    /\ (forall c, In c (carts sample.db) -> Cart.id c <> Cart.id cart)
    /\ items_of db1 (Cart.id cart) = [].
Proof.
  destruct (get_cart_idempotent sample.hash_password sample.verify_hash
              sample.db sample.sam)
    as (db1 & cart & Hfirst & Hsecond & _ & _ & _ & _ & _ & _ & _ & Hfresh & Hempty).
  exists db1, cart.
  split; [exact Hfirst|]. split; [exact Hsecond|]. split.
  - apply Hfresh. reflexivity.
  - apply Hempty; [reflexivity|].
    intros i [<-|[]]. eexists. split; [left; reflexivity|reflexivity].
Defined.

(** ** Adding an item to the cart *)




(** X4: whatever the persistence layer is, every error of [add_item_to_cart]
    has status 404 when its message mentions "not found" in any letter case and
    status 400 otherwise: an error of [add_cart_item] that does not speak of
    something "not found" is sent as status 400. *)
Lemma add_item_error_status (C : crud.Crud) (db : DB) (item : schemas.CartItemBase)
    (current_user : User.t) :
  match snd (main.add_item_to_cart db item current_user) with
  | Ok _ => True
  | Raise e =>
      status_code e = (if contains "not found" (lower (detail e)) then 404 else 400)
  end.
Proof.
  unfold main.add_item_to_cart.
  destruct (match crud.get_cart db (User.id current_user) with
            | Some cart => (db, cart)
            | None => crud.create_cart db (User.id current_user)
            end) as [db1 cart].
  destruct (crud.add_cart_item db1 (Cart.id cart) item) as [db2 [ci|e]]; simpl; [exact I|].
  destruct (contains "not found" (lower e)) eqn:Hnf; simpl.
  - rewrite Hnf. reflexivity.
  - destruct (contains "insufficient" (lower e)); simpl; rewrite Hnf; reflexivity.
Qed.

(** ** Creating an order *)

Lemma filter_nil_find {X : Type} (f : X -> bool) (l : list X) :
  filter f l = [] -> find f l = None.
Proof.
  induction l as [|a l IH]; simpl; [reflexivity|].
  destruct (f a); [discriminate|exact IH].
Qed.

(** C4: creating an order for a user who has no cart fails with NotFound
    (404), and creating one from the user's cart when it holds no item fails
    with EmptyCart (400).  In both cases the store is returned as it was: no
    order or line item is created, no stock is decremented and the carts and
    their items are unchanged. *)
Theorem create_order_without_cart_or_items
    (hash_password : string -> string) (verify_hash : string -> string -> bool)
    (db : DB) (current_user : User.t) :
  (carts_of db (User.id current_user) = [] ->
   main.create_order_from_cart (C := crud_spec.model hash_password verify_hash)
     db current_user
   = (db, Raise cart_not_found))
  /\ (forall cart : Cart.t,
        crud_spec.get_cart db (User.id current_user) = Some cart ->
        items_of db (Cart.id cart) = [] ->
        main.create_order_from_cart (C := crud_spec.model hash_password verify_hash)
          db current_user
        = (db, Raise cart_is_empty)).
Proof.
  unfold main.create_order_from_cart, carts_of, items_of.
  cbn [crud.create_order_from_cart_for_user crud_spec.model].
  unfold crud_spec.create_order_from_cart_for_user.
  split.
  - intros Hnone. unfold crud_spec.get_cart.
    rewrite (filter_nil_find _ _ Hnone). reflexivity.
  - intros cart Hcart Hitems. rewrite Hcart, Hitems. reflexivity.
Qed.

(** Sam has no cart; Bob's cart is empty. *)
Lemma create_order_without_cart_or_items_witness :
  main.create_order_from_cart (C := sample.crud) sample.db sample.sam
  = (sample.db, Raise cart_not_found)
  /\ main.create_order_from_cart (C := sample.crud) sample.db sample.bob
     = (sample.db, Raise cart_is_empty).
Proof.
  split.
  - apply (proj1 (create_order_without_cart_or_items
                    sample.hash_password sample.verify_hash sample.db sample.sam)).
    reflexivity.
  - apply (proj2 (create_order_without_cart_or_items
                    sample.hash_password sample.verify_hash sample.db sample.bob)
             {| Cart.id := 2; Cart.user_id := 2 |});
      reflexivity.
Defined.

(** The workflow does create an order when there is something to order:
    Alice's novel is bought, its stock goes from 5 to 4 and her cart is
    emptied. *)
Example create_order_runs :
  let '(db', r) := main.create_order_from_cart (C := sample.crud)
                     sample.db sample.alice in
  r = Ok {| schemas.Order_row := {| Order.id := 1; Order.user_id := 1 |};
            schemas.Order_items :=
              [ {| OrderItem.id := 1; OrderItem.order_id := 1;
                   OrderItem.product_id := 1; OrderItem.quantity := 1;
                   OrderItem.price := 500 |} ] |}
  /\ map Product.stock (products db') = [4]
  /\ cart_items db' = []
  /\ carts db' = carts sample.db.
Proof. vm_compute. repeat split. Qed.

(** ** Seller product management *)

Lemma find_andb_true {X : Type} (f : X -> bool) (l : list X) :
  find (fun x => f x && true)%bool l = find f l.
Proof.
  induction l as [|a l IH]; simpl; [reflexivity|].
  rewrite andb_true_r, IH. reflexivity.
Qed.

Lemma not_owned (seller_id : Z) (p : Product.t) :
  Product.seller_id p <> Some seller_id -> crud_spec.owned_by seller_id p = false.
Proof.
  unfold crud_spec.owned_by. destruct (Product.seller_id p) as [s|]; [|reflexivity].
  intros Hne. apply Z.eqb_neq. intros ->. apply Hne. reflexivity.
Qed.

(** A seller's update finds no row when no product with that id is theirs. *)
Lemma update_product_scoped
    (db : DB) (product_id : Z) (update : schemas.ProductBase) (seller_id : Z) :
  (forall p, In p (products db) -> Product.id p = product_id ->
             Product.seller_id p <> Some seller_id) ->
  crud_spec.update_product db product_id update (Some seller_id) = (db, None).
Proof.
  intros Hscope. unfold crud_spec.update_product.
  rewrite find_absent; [reflexivity|].
  intros p Hin. destruct (Z.eqb_spec (Product.id p) product_id) as [Hid|]; [|reflexivity].
  simpl. apply not_owned. apply Hscope; assumption.
Qed.

Lemma delete_product_scoped (db : DB) (product_id user_id : Z) :
  (forall p, In p (products db) -> Product.id p = product_id ->
             Product.seller_id p <> Some user_id) ->
  crud_spec.delete_product db product_id user_id "seller" = (db, false).
Proof.
  intros Hscope. unfold crud_spec.delete_product, crud_spec.get_product.
  destruct (find (fun p => Product.id p =? product_id) (products db))
    as [p|] eqn:Hfind; [|reflexivity].
  destruct (find_some _ _ Hfind) as [Hin Hid]. apply Z.eqb_eq in Hid.
  rewrite (not_owned user_id p (Hscope p Hin Hid)). reflexivity.
Qed.

(** C6: for a requester whose role is seller, updating or deleting a product
    fails with the one collapsed outcome 404 "Product not found or not
    authorized", and changes nothing, whenever the product does not exist or
    no product with that id is owned by the requester.  For a requester whose
    role is admin the ownership restriction does not apply: an existing
    product is updated, or deleted, whoever owns it. *)
Theorem seller_product_mutation_scoped
    (hash_password : string -> string) (verify_hash : string -> string -> bool)
    (db : DB) (product_id : Z) (product_update : schemas.ProductBase)
    (requester : User.t) :
  (User.role requester = "seller" ->
   (forall p, In p (products db) -> Product.id p <> product_id)
   \/ (forall p, In p (products db) -> Product.id p = product_id ->
                 Product.seller_id p <> Some (User.id requester)) ->
   main.seller_update_product (C := crud_spec.model hash_password verify_hash)
     db product_id product_update requester
   = (db, Raise product_not_found_or_not_authorized)
   /\ main.seller_delete_product (C := crud_spec.model hash_password verify_hash)
        db product_id requester
      = (db, Raise product_not_found_or_not_authorized))
  /\ (User.role requester = "admin" ->
      forall p : Product.t,
        crud_spec.get_product db product_id = Some p ->
        main.seller_update_product (C := crud_spec.model hash_password verify_hash)
          db product_id product_update requester
        = (set_products db
             (map (fun q => if Product.id q =? Product.id p
                            then crud_spec.apply_product_update p product_update
                            else q) (products db)),
           Ok (crud_spec.apply_product_update p product_update))
        /\ main.seller_delete_product (C := crud_spec.model hash_password verify_hash)
             db product_id requester
           = (set_products db
                (filter (fun q => negb (Product.id q =? product_id)) (products db)),
              Ok {| schemas.message := "Product deleted successfully" |})).
Proof.
  unfold main.seller_update_product, main.seller_delete_product.
  cbn [crud.update_product crud.delete_product crud_spec.model].
  split.
  - intros Hrole Hcase.
    assert (Hscope : forall p, In p (products db) -> Product.id p = product_id ->
                               Product.seller_id p <> Some (User.id requester)).
    { destruct Hcase as [Habsent | Hother]; [|exact Hother].
      intros p Hin Hid. exfalso. exact (Habsent p Hin Hid). }
    rewrite Hrole. cbn [String.eqb Ascii.eqb Bool.eqb andb].
    rewrite (update_product_scoped db product_id product_update _ Hscope).
    rewrite (delete_product_scoped db product_id _ Hscope).
    split; reflexivity.
  - intros Hrole p Hp. rewrite Hrole. cbn [String.eqb Ascii.eqb Bool.eqb andb].
    unfold crud_spec.update_product, crud_spec.delete_product.
    rewrite find_andb_true. unfold crud_spec.get_product in Hp.
    unfold crud_spec.get_product. rewrite Hp.
    split; reflexivity.
Qed.

(** Sue, a seller, tries the novel (Sam's) and a product that does not
    exist; the admin updates and deletes the novel. *)
Lemma seller_product_mutation_scoped_witness :
  let update := {| schemas.ProductBase_name := "Novel, 2nd ed.";
                   schemas.ProductBase_price := 700;
                   schemas.ProductBase_stock := 9;
                   schemas.ProductBase_category_id := 1 |} in
  (main.seller_update_product (C := sample.crud) sample.db 1 update sample.sue
   = (sample.db, Raise product_not_found_or_not_authorized)
   /\ main.seller_delete_product (C := sample.crud) sample.db 42 sample.sue
      = (sample.db, Raise product_not_found_or_not_authorized))
  /\ (map Product.stock
          (products (fst (main.seller_update_product (C := sample.crud)
                            sample.db 1 update sample.root))) = [9]
      /\ products (fst (main.seller_delete_product (C := sample.crud)
                          sample.db 1 sample.root)) = []).
Proof.
  intros update. split; [split|split].
  - apply (proj1 (seller_product_mutation_scoped
                    sample.hash_password sample.verify_hash
                    sample.db 1 update sample.sue) eq_refl).
    right. intros p [<-|[]] _. simpl. discriminate.
  - apply (proj1 (seller_product_mutation_scoped
                    sample.hash_password sample.verify_hash
                    sample.db 42 update sample.sue) eq_refl).
    left. intros p [<-|[]]. simpl. discriminate.
  - unfold sample.crud.
    rewrite (proj1 (proj2 (seller_product_mutation_scoped
                             sample.hash_password sample.verify_hash
                             sample.db 1 update sample.root) eq_refl
                      sample.novel eq_refl)).
    reflexivity.
  - unfold sample.crud.
    rewrite (proj2 (proj2 (seller_product_mutation_scoped
                             sample.hash_password sample.verify_hash
                             sample.db 1 update sample.root) eq_refl
                      sample.novel eq_refl)).
    reflexivity.
Defined.

(** ** Changing a user's role *)

Lemma existsb_eqb_In (r : string) (l : list string) :
  existsb (String.eqb r) l = true <-> In r l.
Proof.
  rewrite existsb_exists. split.
  - intros (x & Hin & Heq). apply String.eqb_eq in Heq. subst. exact Hin.
  - intros Hin. exists r. split; [exact Hin|apply String.eqb_refl].
Qed.

Lemma find_map_replace (uid : Z) (u' : User.t) (l : list User.t) (target : User.t) :
  find (fun u => User.id u =? uid) l = Some target ->
  User.id u' = uid ->
  find (fun u => User.id u =? uid)
       (map (fun u => if User.id u =? uid then u' else u) l) = Some u'.
Proof.
  intros Hfind Hid. induction l as [|a l IH]; simpl in *; [discriminate|].
  destruct (User.id a =? uid) eqn:Ha.
  - rewrite Hid, Z.eqb_refl. reflexivity.
  - rewrite Ha. apply IH. exact Hfind.
Qed.

(** C9: on an existing user, the admin role change fails with InvalidInput
    (400 "Invalid role") exactly when the requested role is not one of
    customer, seller, admin (a request without a role included); otherwise it
    succeeds and the target user's stored role is the requested one.  Either
    way, if every user's role was one of the three before the request, it is
    so after it. *)
Theorem admin_role_change_validated
    (hash_password : string -> string) (verify_hash : string -> string -> bool)
    (db : DB) (user_id : Z) (update : schemas.UserUpdate) (admin target : User.t) :
  crud_spec.get_user db user_id = Some target ->
  let r := main.admin_update_user_role
             (C := crud_spec.model hash_password verify_hash)
             db user_id update admin in
  (snd r = Raise invalid_role
   <-> ~ (exists role, schemas.UserUpdate_role update = Some role
                       /\ In role valid_roles))
  /\ (forall role,
        schemas.UserUpdate_role update = Some role -> In role valid_roles ->
        exists u', snd r = Ok u'
                   /\ User.role u' = role
                   /\ crud_spec.get_user (fst r) user_id = Some u')
  /\ (roles_valid db -> roles_valid (fst r)).
Proof.
  intros Htarget r. subst r. unfold main.admin_update_user_role.
  cbn [crud.get_user crud.update_user crud_spec.model].
  rewrite Htarget.
  destruct (find_some _ _ Htarget) as [_ Hid]. apply Z.eqb_eq in Hid.
  destruct (schemas.UserUpdate_role update) as [role|] eqn:Hrole.
  - fold valid_roles.
    destruct (existsb (String.eqb role) valid_roles) eqn:Hvalid; cbn [negb].
    + apply existsb_eqb_In in Hvalid.
      unfold crud_spec.update_user. cbn [fst snd].
      split; [|split].
      * split; [discriminate|]. intros Hno. exfalso. apply Hno. eauto.
      * intros role' Heq Hin. injection Heq as <-.
        exists (crud_spec.apply_user_update hash_password target update).
        split; [reflexivity|].
        split; [unfold crud_spec.apply_user_update; simpl; rewrite Hrole; reflexivity|].
        unfold crud_spec.get_user. cbn [users set_users]. rewrite Hid.
        apply (find_map_replace user_id _ (users db) target Htarget).
        simpl. exact Hid.
      * unfold roles_valid. cbn [users set_users]. intros Hall.
        apply Forall_forall. intros u Hin. apply in_map_iff in Hin.
        destruct Hin as (u0 & Hu & Hin0).
        destruct (User.id u0 =? User.id target).
        -- subst u. unfold crud_spec.apply_user_update. simpl. rewrite Hrole.
           exact Hvalid.
        -- subst u. rewrite Forall_forall in Hall. apply Hall. exact Hin0.
    + cbn [fst snd]. split; [|split].
      * split; [|reflexivity]. intros _ (role' & Heq & Hin).
        injection Heq as <-. apply existsb_eqb_In in Hin. congruence.
      * intros role' Heq Hin. injection Heq as <-.
        apply existsb_eqb_In in Hin. congruence.
      * auto.
  - cbn [negb fst snd]. split; [|split].
    + split; [|reflexivity]. intros _ (role' & Heq & _). discriminate.
    + intros role' Heq. discriminate.
    + auto.
Qed.

(** The admin makes Bob a seller; asking for the role "superuser" is
    refused. *)
Lemma admin_role_change_validated_witness :
  option_map User.role
    (crud_spec.get_user
       (fst (main.admin_update_user_role (C := sample.crud) sample.db 2
               {| schemas.UserUpdate_email := None;
                  schemas.UserUpdate_password := None;
                  schemas.UserUpdate_role := Some "seller" |} sample.root)) 2)
  = Some "seller"
  /\ snd (main.admin_update_user_role (C := sample.crud) sample.db 2
            {| schemas.UserUpdate_email := None;
               schemas.UserUpdate_password := None;
               schemas.UserUpdate_role := Some "superuser" |} sample.root)
     = Raise invalid_role.
Proof.
  split.
  - destruct (proj1 (proj2 (admin_role_change_validated
                              sample.hash_password sample.verify_hash sample.db 2
                              {| schemas.UserUpdate_email := None;
                                 schemas.UserUpdate_password := None;
                                 schemas.UserUpdate_role := Some "seller" |}
                              sample.root sample.bob eq_refl))
                    "seller" eq_refl (or_intror (or_introl eq_refl)))
      as (u' & _ & Hrole & Hget).
    unfold sample.crud. rewrite Hget. simpl. rewrite Hrole. reflexivity.
  - apply (proj1 (admin_role_change_validated
                    sample.hash_password sample.verify_hash sample.db 2
                    {| schemas.UserUpdate_email := None;
                       schemas.UserUpdate_password := None;
                       schemas.UserUpdate_role := Some "superuser" |}
                    sample.root sample.bob eq_refl)).
    intros (role & Heq & Hin). injection Heq as <-.
    simpl in Hin. intuition discriminate.
Defined.

(** ** Cart items of another user *)

(** Deleting checks the owner before it touches the store: whatever the
    persistence layer is, a requester who neither owns the item's cart nor is
    an admin gets 403 and the store is left as it was. *)
Lemma delete_cart_item_forbidden
    (C : crud.Crud) (db : DB) (cart_item_id : Z) (current_user : User.t)
    (item : CartItem.t) (cart : Cart.t) :
  find (fun i => CartItem.id i =? cart_item_id) (cart_items db) = Some item ->
  find (fun c => Cart.id c =? CartItem.cart_id item) (carts db) = Some cart ->
  Cart.user_id cart <> User.id current_user ->
  User.role current_user <> "admin" ->
  main.delete_cart_item db cart_item_id current_user
  = (db, Raise not_allowed_to_delete).
Proof.
  intros Hitem Hcart Howner Hrole. unfold main.delete_cart_item.
  rewrite Hitem, Hcart.
  apply Z.eqb_neq in Howner. apply String.eqb_neq in Hrole.
  rewrite Howner, Hrole. reflexivity.
Qed.

(** Updating calls the persistence layer first and looks at the owner
    afterwards: whatever the persistence layer is, the store the handler leaves
    behind is the one [crud.update_cart_item] returned, for every requester. *)
Lemma update_cart_item_store
    (C : crud.Crud) (db : DB) (cart_item_id quantity : Z) (current_user : User.t) :
  fst (main.update_cart_item db cart_item_id quantity current_user)
  = fst (crud.update_cart_item db cart_item_id quantity).
Proof.
  unfold main.update_cart_item.
  destruct (crud.update_cart_item db cart_item_id quantity) as [db1 [[item|]|e]];
    simpl; try reflexivity.
  destruct (main.item_cart db1 item) as [cart|]; [|reflexivity].
  destruct (negb (Cart.user_id cart =? User.id current_user)
            && negb (User.role current_user =? "admin")%string)%bool; reflexivity.
Qed.

(** The update is refused all the same: a requester who neither owns the
    item's cart nor is an admin never gets the item back. *)
Lemma update_cart_item_refused
    (C : crud.Crud) (db : DB) (cart_item_id quantity : Z) (current_user : User.t)
    (db1 : DB) (item : CartItem.t) (cart : Cart.t) :
  crud.update_cart_item db cart_item_id quantity = (db1, Ok (Some item)) ->
  main.item_cart db1 item = Some cart ->
  Cart.user_id cart <> User.id current_user ->
  User.role current_user <> "admin" ->
  main.update_cart_item db cart_item_id quantity current_user
  = (db1, Raise not_allowed_to_modify).
Proof.
  intros Hcrud Hcart Howner Hrole. unfold main.update_cart_item.
  rewrite Hcrud, Hcart.
  apply Z.eqb_neq in Howner. apply String.eqb_neq in Hrole.
  rewrite Howner, Hrole. reflexivity.
Qed.

(** C1 (the update path breaks it): Bob, a customer, asks for quantity 4 on
    cart item 1, which sits in Alice's cart with quantity 1.  He is answered
    403 Forbidden, and the stored quantity of Alice's item is 4 afterwards. *)
Theorem update_cart_item_forbidden_after_write
    (hash_password : string -> string) (verify_hash : string -> string -> bool) :
  let r := main.update_cart_item (C := crud_spec.model hash_password verify_hash)
             sample.db 1 4 sample.bob in
  snd r = Raise not_allowed_to_modify
  /\ stored_quantity sample.db 1 = Some 1
  /\ stored_quantity (fst r) 1 = Some 4.
Proof.
  vm_compute. repeat split.
Qed.

(** On the same store Bob's attempt to delete the item is refused and
    changes nothing. *)
Example delete_cart_item_forbidden_runs :
  main.delete_cart_item (C := sample.crud) sample.db 1 sample.bob
  = (sample.db, Raise not_allowed_to_delete).
Proof.
  apply (delete_cart_item_forbidden sample.crud sample.db 1 sample.bob
           {| CartItem.id := 1; CartItem.cart_id := 1;
              CartItem.product_id := 1; CartItem.quantity := 1 |}
           {| Cart.id := 1; Cart.user_id := 1 |});
    try reflexivity; simpl; discriminate.
Qed.


(** ** Runs on the sample store *)

Example lower_contains_runs :
  lower "Cart NOT Found" = "cart not found"
  /\ contains "not found" (lower "Cart NOT Found") = true
  /\ contains "empty" (lower "Insufficient stock") = false
  /\ contains "" "" = true.
Proof. vm_compute. repeat split. Qed.

(** A new email is signed up as user 6, with the hashed password. *)
Example signup_runs :
  let '(db', r) := main.signup (C := sample.crud) sample.db
                     {| schemas.UserCreate_email := "carol@example.com";
                        schemas.UserCreate_password := "pw" |} in
  r = Ok {| User.id := 6; User.email := "carol@example.com";
            User.password := "h:pw"; User.role := "customer" |}
  /\ map User.id (users db') = [1; 2; 3; 4; 5; 6].
Proof. vm_compute. split; reflexivity. Qed.

(** Alice adds two more novels: her existing row goes from 1 to 3 and no row
    is added.  A sixth novel does not fit the stock of 5. *)
Example add_item_runs :
  let '(db', r) := main.add_item_to_cart (C := sample.crud) sample.db
                     {| schemas.CartItemBase_product_id := 1;
                        schemas.CartItemBase_quantity := 2 |} sample.alice in
  r = Ok {| CartItem.id := 1; CartItem.cart_id := 1;
            CartItem.product_id := 1; CartItem.quantity := 3 |}
  /\ map CartItem.quantity (cart_items db') = [3]
  /\ snd (main.add_item_to_cart (C := sample.crud) sample.db
            {| schemas.CartItemBase_product_id := 1;
               schemas.CartItemBase_quantity := 5 |} sample.alice)
     = Raise insufficient_stock
  /\ snd (main.add_item_to_cart (C := sample.crud) sample.db
            {| schemas.CartItemBase_product_id := 7;
               schemas.CartItemBase_quantity := 1 |} sample.alice)
     = Raise {| status_code := 404; detail := "Product not found" |}.
Proof. vm_compute. repeat split. Qed.

(** Alice, the owner, may change her own item, and so may the admin. *)
Example update_cart_item_runs :
  snd (main.update_cart_item (C := sample.crud) sample.db 1 4 sample.alice)
  = Ok {| CartItem.id := 1; CartItem.cart_id := 1;
          CartItem.product_id := 1; CartItem.quantity := 4 |}
  /\ snd (main.update_cart_item (C := sample.crud) sample.db 1 4 sample.root)
     = Ok {| CartItem.id := 1; CartItem.cart_id := 1;
             CartItem.product_id := 1; CartItem.quantity := 4 |}
  /\ snd (main.update_cart_item (C := sample.crud) sample.db 9 4 sample.alice)
     = Raise {| status_code := 404; detail := "Cart item not found" |}.
Proof. vm_compute. repeat split. Qed.


(** ** Who a cart item handler serves *)

(** X1: whatever the persistence layer is, [update_cart_item] hands a cart
    item back only when the persistence layer returned that item and the
    requester owns the item's cart or is an admin. *)
Theorem update_cart_item_ok_is_authorized
    (C : crud.Crud) (db : DB) (cart_item_id quantity : Z) (current_user : User.t)
    (item : CartItem.t) :
  snd (main.update_cart_item db cart_item_id quantity current_user) = Ok item ->
  exists (db1 : DB) (cart : Cart.t),
    crud.update_cart_item db cart_item_id quantity = (db1, Ok (Some item))
    /\ main.item_cart db1 item = Some cart
    /\ (Cart.user_id cart = User.id current_user \/ User.role current_user = "admin").
Proof.
  unfold main.update_cart_item.
  destruct (crud.update_cart_item db cart_item_id quantity) as [db1 [[it|]|e]];
    simpl; try discriminate.
  destruct (main.item_cart db1 it) as [cart|] eqn:Hcart; simpl; [|discriminate].
  destruct (Z.eqb_spec (Cart.user_id cart) (User.id current_user)) as [Hown|Hown];
    destruct (String.eqb_spec (User.role current_user) "admin") as [Hadm|Hadm];
    simpl; try discriminate;
    intros Heq; injection Heq as ->; exists db1, cart; auto.
Qed.

Lemma update_cart_item_ok_is_authorized_witness :
  exists (db1 : DB) (cart : Cart.t),
    crud.update_cart_item (Crud := sample.crud) sample.db 1 4
    = (db1, Ok (Some {| CartItem.id := 1; CartItem.cart_id := 1;
                        CartItem.product_id := 1; CartItem.quantity := 4 |}))
    /\ main.item_cart db1 {| CartItem.id := 1; CartItem.cart_id := 1;
                             CartItem.product_id := 1; CartItem.quantity := 4 |}
       = Some cart
    /\ (Cart.user_id cart = User.id sample.alice \/ User.role sample.alice = "admin").
Proof.
  apply (update_cart_item_ok_is_authorized sample.crud sample.db 1 4 sample.alice).
  reflexivity.
Defined.

(** X2: whatever the persistence layer is, [update_cart_item] answers 403
    "Not allowed to modify this item" only to a requester who is not an admin
    and does not own the cart of the item the persistence layer returned. *)
Theorem update_cart_item_forbidden_is_stranger
    (C : crud.Crud) (db : DB) (cart_item_id quantity : Z) (current_user : User.t) :
  snd (main.update_cart_item db cart_item_id quantity current_user)
  = Raise not_allowed_to_modify ->
  exists (db1 : DB) (item : CartItem.t) (cart : Cart.t),
    crud.update_cart_item db cart_item_id quantity = (db1, Ok (Some item))
    /\ main.item_cart db1 item = Some cart
    /\ Cart.user_id cart <> User.id current_user
    /\ User.role current_user <> "admin".
Proof.
  unfold main.update_cart_item, not_allowed_to_modify, internal_server_error.
  destruct (crud.update_cart_item db cart_item_id quantity) as [db1 [[it|]|e]];
    simpl; try discriminate.
  destruct (main.item_cart db1 it) as [cart|] eqn:Hcart; simpl; [|discriminate].
  destruct (Z.eqb_spec (Cart.user_id cart) (User.id current_user)) as [Hown|Hown];
    destruct (String.eqb_spec (User.role current_user) "admin") as [Hadm|Hadm];
    simpl; try discriminate.
  intros _. exists db1, it, cart. auto.
Qed.

Lemma update_cart_item_forbidden_is_stranger_witness :
  exists (db1 : DB) (item : CartItem.t) (cart : Cart.t),
    crud.update_cart_item (Crud := sample.crud) sample.db 1 4 = (db1, Ok (Some item))
    /\ main.item_cart db1 item = Some cart
    /\ Cart.user_id cart <> User.id sample.bob
    /\ User.role sample.bob <> "admin".
Proof.
  apply (update_cart_item_forbidden_is_stranger sample.crud sample.db 1 4 sample.bob).
  reflexivity.
Defined.

(** X3: whatever the persistence layer is, [delete_cart_item] changes the
    store, or reports success, only when the item and its cart exist and the
    requester owns that cart or is an admin; the store it leaves is then the
    one [crud.remove_cart_item] returned. *)
Theorem delete_cart_item_guarded
    (C : crud.Crud) (db : DB) (cart_item_id : Z) (current_user : User.t) :
  fst (main.delete_cart_item db cart_item_id current_user) <> db
  \/ (exists m, snd (main.delete_cart_item db cart_item_id current_user) = Ok m) ->
  exists (item : CartItem.t) (cart : Cart.t),
    find (fun i => CartItem.id i =? cart_item_id) (cart_items db) = Some item
    /\ find (fun c => Cart.id c =? CartItem.cart_id item) (carts db) = Some cart
    /\ (Cart.user_id cart = User.id current_user \/ User.role current_user = "admin")
    /\ fst (main.delete_cart_item db cart_item_id current_user)
       = fst (crud.remove_cart_item db cart_item_id).
Proof.
  unfold main.delete_cart_item.
  destruct (find (fun i => CartItem.id i =? cart_item_id) (cart_items db))
    as [item|] eqn:Hitem; simpl.
  2: { intros [H|(m & H)]; [congruence|discriminate]. }
  destruct (find (fun c => Cart.id c =? CartItem.cart_id item) (carts db))
    as [cart|] eqn:Hcart; simpl.
  2: { intros [H|(m & H)]; [congruence|discriminate]. }
  destruct (Z.eqb_spec (Cart.user_id cart) (User.id current_user)) as [Hown|Hown];
    destruct (String.eqb_spec (User.role current_user) "admin") as [Hadm|Hadm];
    simpl.
  4: { intros [H|(m & H)]; [congruence|discriminate]. }
  all: intros _; exists item, cart;
    destruct (crud.remove_cart_item db cart_item_id) as [db1 [|]]; simpl;
    repeat split; auto.
Qed.

(** Alice removes her own item. *)
Lemma delete_cart_item_guarded_witness :
  exists (item : CartItem.t) (cart : Cart.t),
    find (fun i => CartItem.id i =? 1) (cart_items sample.db) = Some item
    /\ find (fun c => Cart.id c =? CartItem.cart_id item) (carts sample.db) = Some cart
    /\ (Cart.user_id cart = User.id sample.alice \/ User.role sample.alice = "admin")
    /\ fst (main.delete_cart_item (C := sample.crud) sample.db 1 sample.alice)
       = fst (crud.remove_cart_item (Crud := sample.crud) sample.db 1).
Proof.
  apply (delete_cart_item_guarded sample.crud sample.db 1 sample.alice).
  right. eexists. reflexivity.
Defined.

(** ** How errors of the persistence layer are sent *)

(** X5: whatever the persistence layer is, when
    [crud.create_order_from_cart_for_user] raises, [create_order_from_cart]
    sends the message unchanged, with status 404 when the message mentions
    "not found" in any letter case and with status 400 otherwise, and leaves
    the store as the persistence layer left it. *)
Theorem create_order_error_mapping
    (C : crud.Crud) (db db1 : DB) (current_user : User.t) (e : ValueError) :
  crud.create_order_from_cart_for_user db (User.id current_user) = (db1, Raise e) ->
  main.create_order_from_cart db current_user
  = (db1, Raise {| status_code := if contains "not found" (lower e)
                                  then 404 else 400;
                   detail := e |}).
Proof.
  unfold main.create_order_from_cart. intros ->.
  destruct (contains "not found" (lower e)); [reflexivity|].
  destruct (contains "empty" (lower e)); reflexivity.
Qed.

(** Sam has no cart. *)
Lemma create_order_error_mapping_witness :
  main.create_order_from_cart (C := sample.crud) sample.db sample.sam
  = (sample.db, Raise {| status_code := 404; detail := "Cart not found" |}).
Proof.
  apply (create_order_error_mapping sample.crud sample.db sample.db sample.sam
           "Cart not found").
  reflexivity.
Defined.



(** X7: whatever [crud.create_review] is, every error it raises is sent by
    [add_review] with status 400, also when its message speaks of something
    not found. *)
Theorem add_review_errors_are_400
    (ReviewCreate ReviewResponse : Type)
    (crud_create_review :
       DB -> Z -> ReviewCreate -> DB * result ValueError ReviewResponse)
    (db : DB) (review : ReviewCreate) (current_user : User.t) :
  match snd (main_rest.add_review crud_create_review db review current_user) with
  | Ok _ => True
  | Raise e =>
      status_code e = 400
      /\ snd (crud_create_review db (User.id current_user) review)
         = Raise (detail e)
  end.
Proof.
  unfold main_rest.add_review.
  destruct (crud_create_review db (User.id current_user) review) as [db1 [r|e]];
    simpl; auto.
Qed.

(** ** Users *)

(** X8: whatever the persistence layer is, a user who sends a valid role in
    the update of their own profile gets exactly what the admin role change on
    their id gives: [update_user] does not look at the role at all. *)
Theorem self_update_is_role_change
    (C : crud.Crud) (db : DB) (update : schemas.UserUpdate)
    (current_user admin : User.t) :
  (exists role, schemas.UserUpdate_role update = Some role /\ In role valid_roles) ->
  main_rest.update_user db update current_user
  = main.admin_update_user_role db (User.id current_user) update admin.
Proof.
  intros (role & Hrole & Hin).
  unfold main_rest.update_user, main.admin_update_user_role.
  destruct (crud.get_user db (User.id current_user)) as [db_user|]; [|reflexivity].
  rewrite Hrole. fold valid_roles.
  apply existsb_eqb_In in Hin. rewrite Hin. reflexivity.
Qed.

(** Bob, a customer, asks for the role admin in his own profile. *)
Lemma self_update_is_role_change_witness :
  main_rest.update_user (C := sample.crud) sample.db
    {| schemas.UserUpdate_email := None; schemas.UserUpdate_password := None;
       schemas.UserUpdate_role := Some "admin" |} sample.bob
  = main.admin_update_user_role (C := sample.crud) sample.db 2
      {| schemas.UserUpdate_email := None; schemas.UserUpdate_password := None;
         schemas.UserUpdate_role := Some "admin" |} sample.root.
Proof.
  apply (self_update_is_role_change sample.crud sample.db _ sample.bob sample.root).
  exists "admin". split; [reflexivity|]. simpl. auto.
Defined.

(** Whatever [crud.del_user] is, an admin deleting the user with a given id
    and that user deleting their own account are the same request. *)
Remark admin_delete_is_own_delete
    (crud_del_user : DB -> Z -> DB * option User.t)
    (db : DB) (current_user admin : User.t) :
  main_rest.admin_delete_user crud_del_user db (User.id current_user) admin
  = main_rest.delete_own_account crud_del_user db current_user.
Proof.
  unfold main_rest.admin_delete_user, main_rest.delete_own_account.
  reflexivity.
Qed.

(** X9: whatever the persistence layer is, a role change the admin handler
    refuses never reaches the store: the store is changed only when the target
    user exists and the requested role is one of customer, seller, admin, and
    it is then the store [crud.update_user] returned. *)
Theorem admin_role_change_guarded
    (C : crud.Crud) (db : DB) (user_id : Z) (update : schemas.UserUpdate)
    (admin : User.t) :
  fst (main.admin_update_user_role db user_id update admin) <> db ->
  exists (target : User.t) (role : string),
    crud.get_user db user_id = Some target
    /\ schemas.UserUpdate_role update = Some role
    /\ In role valid_roles
    /\ fst (main.admin_update_user_role db user_id update admin)
       = fst (crud.update_user db target update).
Proof.
  unfold main.admin_update_user_role.
  destruct (crud.get_user db user_id) as [target|]; cbn [fst];
    [|intros H; congruence].
  destruct (schemas.UserUpdate_role update) as [role|]; cbn [fst negb];
    [|intros H; congruence].
  fold valid_roles.
  destruct (existsb (String.eqb role) valid_roles) eqn:Hvalid; cbn [fst negb];
    [|intros H; congruence].
  intros _. exists target, role. apply existsb_eqb_In in Hvalid.
  destruct (crud.update_user db target update) as [db1 u]. auto.
Qed.

(** The admin makes Bob a seller. *)
Lemma admin_role_change_guarded_witness :
  exists (target : User.t) (role : string),
    crud.get_user (Crud := sample.crud) sample.db 2 = Some target
    /\ Some "seller" = Some role
    /\ In role valid_roles
    /\ fst (main.admin_update_user_role (C := sample.crud) sample.db 2
              {| schemas.UserUpdate_email := None;
                 schemas.UserUpdate_password := None;
                 schemas.UserUpdate_role := Some "seller" |} sample.root)
       = fst (crud.update_user (Crud := sample.crud) sample.db target
                {| schemas.UserUpdate_email := None;
                   schemas.UserUpdate_password := None;
                   schemas.UserUpdate_role := Some "seller" |}).
Proof.
  apply (admin_role_change_guarded sample.crud sample.db 2
           {| schemas.UserUpdate_email := None;
              schemas.UserUpdate_password := None;
              schemas.UserUpdate_role := Some "seller" |} sample.root).
  vm_compute. discriminate.
Defined.

(** X10: whatever the persistence layer is, [signup] fails only for an
    email the lookup finds: the error is then "Email already registered" and
    the store is left as it was. *)
Theorem signup_fails_only_when_registered
    (C : crud.Crud) (db : DB) (user : schemas.UserCreate) (e : HTTPException) :
  snd (main.signup db user) = Raise e ->
  e = email_registered
  /\ fst (main.signup db user) = db
  /\ exists u, crud.get_user_by_email db (schemas.UserCreate_email user) = Some u.
Proof.
  unfold main.signup.
  destruct (crud.get_user_by_email db (schemas.UserCreate_email user)) as [u|].
  - simpl. intros Heq. injection Heq as <-. eauto.
  - destruct (crud.Signup db user) as [db' u]. simpl. discriminate.
Qed.

Lemma signup_fails_only_when_registered_witness :
  email_registered = email_registered
  /\ fst (main.signup (C := sample.crud) sample.db
            {| schemas.UserCreate_email := "bob@example.com";
               schemas.UserCreate_password := "hunter2" |}) = sample.db
  /\ exists u, crud.get_user_by_email (Crud := sample.crud) sample.db
                 "bob@example.com" = Some u.
Proof.
  apply (signup_fails_only_when_registered sample.crud sample.db
           {| schemas.UserCreate_email := "bob@example.com";
              schemas.UserCreate_password := "hunter2" |} email_registered).
  reflexivity.
Defined.

(** X11: whatever the persistence layer and the token issuer are, [login]
    succeeds exactly when the lookup finds a user and the password verifies
    against that user's stored password. *)
Theorem login_succeeds_iff
    (C : crud.Crud) (A : auth.Auth) (now : Z) (db : DB)
    (form_data : schemas.OAuth2PasswordRequestForm) :
  (exists token, snd (main.login now db form_data) = Ok token)
  <-> (exists user,
         crud.get_user_by_email db (schemas.username form_data) = Some user
         /\ crud.verify_password (schemas.form_password form_data)
                                 (User.password user) = true).
Proof.
  unfold main.login.
  destruct (crud.get_user_by_email db (schemas.username form_data)) as [user|].
  - destruct (crud.verify_password (schemas.form_password form_data)
                                   (User.password user)) eqn:Hpw; simpl.
    + split; [intros _; exists user; auto | intros _; eexists; reflexivity].
    + split.
      * intros (token & H). discriminate.
      * intros (u & Hu & Hv). injection Hu as <-. congruence.
  - simpl. split.
    + intros (token & H). discriminate.
    + intros (u & Hu & _). discriminate.
Qed.

Lemma login_succeeds_iff_witness :
  exists token,
    snd (main.login (C := sample.crud) (A := sample.auth) 1000 sample.db
           {| schemas.username := "alice@example.com";
              schemas.form_password := "wonderland" |}) = Ok token.
Proof.
  apply (proj2 (login_succeeds_iff sample.crud sample.auth 1000 sample.db
                  {| schemas.username := "alice@example.com";
                     schemas.form_password := "wonderland" |})).
  exists sample.alice. split; reflexivity.
Defined.

(** ** Orders *)

(** X12: whatever [crud.get_order] is, [get_order] hands out an order only
    when it is the order the persistence layer found and it belongs to the
    requester or the requester is an admin. *)
Theorem get_order_ok_is_authorized
    (crud_get_order : DB -> Z -> option schemas.Order)
    (db : DB) (order_id : Z) (current_user : User.t) (order : schemas.Order) :
  snd (main_rest.get_order crud_get_order db order_id current_user) = Ok order ->
  crud_get_order db order_id = Some order
  /\ (Order.user_id (schemas.Order_row order) = User.id current_user
      \/ User.role current_user = "admin").
Proof.
  unfold main_rest.get_order.
  destruct (crud_get_order db order_id) as [o|]; simpl; [|discriminate].
  destruct (Z.eqb_spec (Order.user_id (schemas.Order_row o)) (User.id current_user));
    destruct (String.eqb_spec (User.role current_user) "admin");
    simpl; try discriminate; intros Heq; injection Heq as ->; auto.
Qed.

(** Alice reads her order, and so does the admin. *)
Lemma get_order_ok_is_authorized_witness :
  (crud_spec_rest.get_order sample_rest.db_with_order 1 = Some sample_rest.order1
   /\ (Order.user_id (schemas.Order_row sample_rest.order1) = User.id sample.alice
       \/ User.role sample.alice = "admin"))
  /\ (crud_spec_rest.get_order sample_rest.db_with_order 1 = Some sample_rest.order1
      /\ (Order.user_id (schemas.Order_row sample_rest.order1) = User.id sample.root
          \/ User.role sample.root = "admin")).
Proof.
  split.
  - apply (get_order_ok_is_authorized crud_spec_rest.get_order
             sample_rest.db_with_order 1 sample.alice sample_rest.order1).
    reflexivity.
  - apply (get_order_ok_is_authorized crud_spec_rest.get_order
             sample_rest.db_with_order 1 sample.root sample_rest.order1).
    reflexivity.
Defined.

(** X13: whatever [crud.get_order] is, [get_order] answers 403 only for an
    order that exists and belongs to somebody else, to a requester who is not
    an admin; an id without an order is answered 404, so the two answers tell
    a stranger whether the order exists. *)
Theorem get_order_forbidden_means_exists
    (crud_get_order : DB -> Z -> option schemas.Order)
    (db : DB) (order_id : Z) (current_user : User.t) :
  (crud_get_order db order_id = None ->
   main_rest.get_order crud_get_order db order_id current_user
   = (db, Raise {| status_code := 404; detail := "Order not found" |}))
  /\ (snd (main_rest.get_order crud_get_order db order_id current_user)
      = Raise not_allowed_to_access ->
      exists order,
        crud_get_order db order_id = Some order
        /\ Order.user_id (schemas.Order_row order) <> User.id current_user
        /\ User.role current_user <> "admin").
Proof.
  unfold main_rest.get_order, not_allowed_to_access. split.
  - intros ->. reflexivity.
  - destruct (crud_get_order db order_id) as [o|]; simpl; [|discriminate].
    destruct (Z.eqb_spec (Order.user_id (schemas.Order_row o)) (User.id current_user));
      destruct (String.eqb_spec (User.role current_user) "admin");
      simpl; try discriminate.
    intros _. exists o. auto.
Qed.

(** Bob asks for Alice's order 1, and for order 7, which does not exist. *)
Lemma get_order_forbidden_means_exists_witness :
  main_rest.get_order crud_spec_rest.get_order sample_rest.db_with_order 7 sample.bob
  = (sample_rest.db_with_order,
     Raise {| status_code := 404; detail := "Order not found" |})
  /\ exists order,
       crud_spec_rest.get_order sample_rest.db_with_order 1 = Some order
       /\ Order.user_id (schemas.Order_row order) <> User.id sample.bob
       /\ User.role sample.bob <> "admin".
Proof.
  split.
  - apply (proj1 (get_order_forbidden_means_exists crud_spec_rest.get_order
                    sample_rest.db_with_order 7 sample.bob)).
    reflexivity.
  - apply (proj2 (get_order_forbidden_means_exists crud_spec_rest.get_order
                    sample_rest.db_with_order 1 sample.bob)).
    reflexivity.
Defined.

(** ** Products of a requester who is not a seller *)

(** X14: whatever the persistence layer is, for requesters whose role is
    not seller the creation and the update of a product do not depend on who
    asks: the requester's id is not passed on, so the product is created
    without an owner and the update is not scoped to an owner. *)
Theorem non_seller_product_requests_ignore_requester
    (C : crud.Crud)
    (crud_create_product : DB -> schemas.ProductBase -> option Z -> DB * Product.t)
    (db : DB) (product_id : Z) (product : schemas.ProductBase)
    (requester other : User.t) :
  User.role requester <> "seller" ->
  User.role other <> "seller" ->
  main_rest.create_product crud_create_product db product requester
  = main_rest.create_product crud_create_product db product other
  /\ snd (main_rest.create_product crud_create_product db product requester)
     = Ok (snd (crud_create_product db product None))
  /\ main.seller_update_product db product_id product requester
     = main.seller_update_product db product_id product other.
Proof.
  intros Hr Ho. apply String.eqb_neq in Hr, Ho.
  unfold main_rest.create_product, main.seller_update_product.
  rewrite Hr, Ho.
  destruct (crud_create_product db product None) as [db1 p].
  repeat split.
Qed.

(** The admin creates a product: it has no owner.  Any other non-seller
    would get the same. *)
Lemma non_seller_product_requests_ignore_requester_witness :
  main_rest.create_product crud_spec_rest.create_product sample.db
    sample_rest.gadget sample.root
  = main_rest.create_product crud_spec_rest.create_product sample.db
      sample_rest.gadget sample.alice
  /\ snd (main_rest.create_product crud_spec_rest.create_product sample.db
            sample_rest.gadget sample.root)
     = Ok (snd (crud_spec_rest.create_product sample.db sample_rest.gadget None))
  /\ main.seller_update_product (C := sample.crud) sample.db 1
       sample_rest.gadget sample.root
     = main.seller_update_product (C := sample.crud) sample.db 1
         sample_rest.gadget sample.alice.
Proof.
  apply (non_seller_product_requests_ignore_requester sample.crud
           crud_spec_rest.create_product sample.db 1 sample_rest.gadget
           sample.root sample.alice);
    simpl; discriminate.
Defined.

(** ** The cart, for any persistence layer *)

(** X15: for every persistence layer in which the cart just created for a
    user is the one the lookup then finds, [get_cart] is idempotent: called on
    the store it left, it gives the same cart and the same store again. *)
Theorem get_cart_idempotent_for_any_layer
    (C : crud.Crud) (db : DB) (current_user : User.t) :
  (forall db1 cart,
      crud.get_cart db (User.id current_user) = None ->
      crud.create_cart db (User.id current_user) = (db1, cart) ->
      crud.get_cart db1 (User.id current_user) = Some cart) ->
  main.get_cart (fst (main.get_cart db current_user)) current_user
  = main.get_cart db current_user.
Proof.
  intros Hlaw. unfold main.get_cart.
  destruct (crud.get_cart db (User.id current_user)) as [cart|] eqn:Hget.
  - cbn [fst]. rewrite Hget. reflexivity.
  - destruct (crud.create_cart db (User.id current_user)) as [db1 cart] eqn:Hcreate.
    cbn [fst]. rewrite (Hlaw db1 cart eq_refl eq_refl). reflexivity.
Qed.

(** Sam, who has no cart yet. *)
Lemma get_cart_idempotent_for_any_layer_witness :
  main.get_cart (C := sample.crud)
    (fst (main.get_cart (C := sample.crud) sample.db sample.sam)) sample.sam
  = main.get_cart (C := sample.crud) sample.db sample.sam.
Proof.
  apply (get_cart_idempotent_for_any_layer sample.crud sample.db sample.sam).
  intros db1 cart _ Hcreate. injection Hcreate as <- <-. reflexivity.
Defined.


(** ** Cart items and the carts they belong to *)

Lemma in_map_replace {X : Type} (same : X -> bool) (x' : X) (l : list X) (x : X) :
  In x (map (fun y => if same y then x' else y) l) -> x = x' \/ In x l.
Proof.
  intros Hin. apply in_map_iff in Hin. destruct Hin as (y & Hy & Hin).
  destruct (same y); [left; congruence | right; congruence].
Qed.

(** A store whose carts are kept and whose items are old ones or sit in
    one of its carts has the invariant again. *)
Lemma items_have_carts_step (db db' : DB) :
  items_have_carts db ->
  (forall c, In c (carts db) -> In c (carts db')) ->
  (forall i, In i (cart_items db') ->
             In i (cart_items db)
             \/ exists c, In c (carts db') /\ Cart.id c = CartItem.cart_id i) ->
  items_have_carts db'.
Proof.
  intros Hinv Hcarts Hitems i Hin.
  destruct (Hitems i Hin) as [Hold|Hnew]; [|exact Hnew].
  destruct (Hinv i Hold) as (c & Hc & Hid). exists c. auto.
Qed.

(** A request that leaves both tables alone keeps the invariant. *)
Lemma items_have_carts_same (db db' : DB) :
  carts db' = carts db -> cart_items db' = cart_items db ->
  items_have_carts db -> items_have_carts db'.
Proof.
  intros Hc Hi Hinv. apply (items_have_carts_step db db' Hinv).
  - rewrite Hc. auto.
  - rewrite Hi. auto.
Qed.

Lemma store_item_keeps (db : DB) (existing : CartItem.t) (q : Z) :
  items_have_carts db -> In existing (cart_items db) ->
  items_have_carts (crud_spec.store_item db (crud_spec.set_quantity existing q)).
Proof.
  intros Hinv Hex. apply (items_have_carts_step db _ Hinv).
  - simpl. auto.
  - simpl. intros i Hin. apply in_map_replace in Hin.
    destruct Hin as [->|Hold]; [right|left; exact Hold].
    exact (Hinv existing Hex).
Qed.

Lemma create_cart_keeps (db : DB) (user_id : Z) :
  items_have_carts db -> items_have_carts (fst (crud_spec.create_cart db user_id)).
Proof.
  intros Hinv. apply (items_have_carts_step db _ Hinv); simpl.
  - intros c Hc. apply in_or_app. left. exact Hc.
  - auto.
Qed.

Lemma add_cart_item_keeps (db : DB) (cart : Cart.t) (item : schemas.CartItemBase) :
  items_have_carts db -> In cart (carts db) ->
  items_have_carts (fst (crud_spec.add_cart_item db (Cart.id cart) item)).
Proof.
  intros Hinv Hcart. unfold crud_spec.add_cart_item.
  destruct (crud_spec.get_product db (schemas.CartItemBase_product_id item))
    as [product|]; [|exact Hinv].
  destruct (schemas.CartItemBase_quantity item <=? 0); [exact Hinv|].
  destruct (Product.stock product <? schemas.CartItemBase_quantity item);
    [exact Hinv|].
  destruct (find _ (cart_items db)) as [existing|] eqn:Hfind.
  - destruct (Product.stock product <? _); [exact Hinv|].
    apply store_item_keeps; [exact Hinv|].
    exact (proj1 (find_some _ _ Hfind)).
  - apply (items_have_carts_step db _ Hinv); simpl; [auto|].
    intros i Hin. apply in_app_or in Hin.
    destruct Hin as [Hold|[<-|[]]]; [left; exact Hold|right].
    exists cart. auto.
Qed.

Lemma update_cart_item_keeps (db : DB) (cart_item_id quantity : Z) :
  items_have_carts db ->
  items_have_carts (fst (crud_spec.update_cart_item db cart_item_id quantity)).
Proof.
  intros Hinv. unfold crud_spec.update_cart_item.
  destruct (find _ (cart_items db)) as [item|] eqn:Hfind; [|exact Hinv].
  destruct (crud_spec.get_product db (CartItem.product_id item)) as [product|];
    [|exact Hinv].
  destruct (Product.stock product <? quantity); [exact Hinv|].
  apply store_item_keeps; [exact Hinv|].
  exact (proj1 (find_some _ _ Hfind)).
Qed.

Lemma remove_cart_item_keeps (db : DB) (cart_item_id : Z) :
  items_have_carts db ->
  items_have_carts (fst (crud_spec.remove_cart_item db cart_item_id)).
Proof.
  intros Hinv. unfold crud_spec.remove_cart_item.
  destruct (find _ (cart_items db)); [|exact Hinv].
  apply (items_have_carts_step db _ Hinv); simpl; [auto|].
  intros i Hin. left. apply filter_In in Hin. tauto.
Qed.

Lemma create_order_keeps (db : DB) (user_id : Z) :
  items_have_carts db ->
  items_have_carts (fst (crud_spec.create_order_from_cart_for_user db user_id)).
Proof.
  intros Hinv. unfold crud_spec.create_order_from_cart_for_user.
  destruct (crud_spec.get_cart db user_id) as [cart|]; [|exact Hinv].
  destruct (filter _ (cart_items db)) as [|i0 rest]; [exact Hinv|].
  destruct (crud_spec.check_stock db (i0 :: rest)); [exact Hinv|].
  apply (items_have_carts_step db _ Hinv); simpl; [auto|].
  intros i Hin. left. apply filter_In in Hin. tauto.
Qed.

(** Every request keeps the cart items inside the carts of the store:
    carts are never removed and an item is only ever put into a cart the
    handler has just looked up or created. *)
Theorem serve_keeps_items_have_carts
    (hash_password : string -> string) (verify_hash : string -> string -> bool)
    (A : auth.Auth) (db : DB) (req : Request) :
  items_have_carts db ->
  items_have_carts (serve (crud_spec.model hash_password verify_hash) A db req).
Proof.
  intros Hinv. destruct req; unfold serve.
  - unfold main.signup. cbn [crud.get_user_by_email crud.Signup crud_spec.model].
    destruct (crud_spec.get_user_by_email db _); [exact Hinv|].
    apply (items_have_carts_same db); auto.
  - unfold main.login.
    destruct (crud.get_user_by_email db _); [|exact Hinv].
    destruct (negb _); exact Hinv.
  - unfold main.list_products_by_category.
    destruct (crud.get_products_by_category db category_id); exact Hinv.
  - unfold main.get_cart. cbn [crud.get_cart crud.create_cart crud_spec.model].
    destruct (crud_spec.get_cart db _); [exact Hinv|].
    apply (create_cart_keeps db (User.id current_user) Hinv).
  - unfold main.add_item_to_cart.
    cbn [crud.get_cart crud.create_cart crud.add_cart_item crud_spec.model].
    assert (Hcart : exists db1 cart,
               match crud_spec.get_cart db (User.id current_user) with
               | Some cart => (db, cart)
               | None => crud_spec.create_cart db (User.id current_user)
               end = (db1, cart)
               /\ items_have_carts db1 /\ In cart (carts db1)).
    { destruct (crud_spec.get_cart db (User.id current_user)) as [cart|] eqn:Hget.
      - exists db, cart. repeat split; [exact Hinv|].
        exact (proj1 (find_some _ _ Hget)).
      - eexists _, _. split; [reflexivity|]. split.
        + apply (create_cart_keeps db (User.id current_user) Hinv).
        + simpl. apply in_or_app. right. left. reflexivity. }
    destruct Hcart as (db1 & cart & -> & Hinv1 & Hin1).
    pose proof (add_cart_item_keeps db1 cart item Hinv1 Hin1) as Hkeep.
    destruct (crud_spec.add_cart_item db1 (Cart.id cart) item) as [db2 [ci|e]];
      [exact Hkeep|].
    destruct (contains "not found" (lower e)); [exact Hkeep|].
    destruct (contains "insufficient" (lower e)); exact Hkeep.
  - rewrite update_cart_item_store. apply update_cart_item_keeps. exact Hinv.
  - unfold main.delete_cart_item. cbn [crud.remove_cart_item crud_spec.model].
    destruct (find _ (cart_items db)) as [item|]; [|exact Hinv].
    destruct (find _ (carts db)) as [cart|]; [|exact Hinv].
    destruct (negb _ && negb _)%bool; [exact Hinv|].
    pose proof (remove_cart_item_keeps db cart_item_id Hinv) as Hkeep.
    destruct (crud_spec.remove_cart_item db cart_item_id) as [db1 [|]]; exact Hkeep.
  - unfold main.create_order_from_cart.
    cbn [crud.create_order_from_cart_for_user crud_spec.model].
    pose proof (create_order_keeps db (User.id current_user) Hinv) as Hkeep.
    destruct (crud_spec.create_order_from_cart_for_user db (User.id current_user))
      as [db1 [o|e]]; [exact Hkeep|].
    destruct (contains "not found" (lower e)); [exact Hkeep|].
    destruct (contains "empty" (lower e)); exact Hkeep.
  - unfold main.seller_update_product. cbn [crud.update_product crud_spec.model].
    unfold crud_spec.update_product.
    destruct (find _ (products db)); [|exact Hinv].
    apply (items_have_carts_same db); auto.
  - unfold main.seller_delete_product. cbn [crud.delete_product crud_spec.model].
    unfold crud_spec.delete_product.
    destruct (crud_spec.get_product db product_id); [|exact Hinv].
    destruct (negb _ && negb _)%bool; [exact Hinv|].
    apply (items_have_carts_same db); auto.
  - unfold main.admin_update_user_role.
    cbn [crud.get_user crud.update_user crud_spec.model].
    destruct (crud_spec.get_user db user_id); [|exact Hinv].
    destruct (negb _); [exact Hinv|].
    apply (items_have_carts_same db); auto.
  - unfold main_rest.update_user.
    cbn [crud.get_user crud.update_user crud_spec.model].
    destruct (crud_spec.get_user db _); [|exact Hinv].
    apply (items_have_carts_same db); auto.
  - unfold main_rest.delete_own_account, crud_spec_rest.del_user.
    destruct (find _ (users db)); [|exact Hinv].
    apply (items_have_carts_same db); auto.
  - unfold main_rest.admin_delete_user, crud_spec_rest.del_user.
    destruct (find _ (users db)); [|exact Hinv].
    apply (items_have_carts_same db); auto.
  - unfold main_rest.create_product, crud_spec_rest.create_product.
    apply (items_have_carts_same db); auto.
Qed.

(** So does every sequence of requests; a store without cart items has the
    invariant to begin with. *)
Corollary requests_keep_items_have_carts
    (hash_password : string -> string) (verify_hash : string -> string -> bool)
    (A : auth.Auth) (reqs : list Request) (db : DB) :
  items_have_carts db ->
  items_have_carts
    (fold_left (serve (crud_spec.model hash_password verify_hash) A) reqs db).
Proof.
  revert db. induction reqs as [|req reqs IH]; intros db Hinv; simpl; [exact Hinv|].
  apply IH. apply serve_keeps_items_have_carts. exact Hinv.
Qed.

Lemma items_have_carts_without_items (db : DB) :
  cart_items db = [] -> items_have_carts db.
Proof.
  intros Hnil i Hin. rewrite Hnil in Hin. contradiction.
Qed.
